(** * MP4 background page maker: the upload / viewer / raw-playback server

    A shallow embedding of [src/server.js] (an Express application backed by
    an S3-compatible bucket) and the properties its specification states.

    Layout of the development:
    - [Js]       the JavaScript built-ins the handlers call (string slicing,
                 the [||] default, [crypto.randomUUID], [Date.toISOString]);
    - [Http]     the Express response object;
    - [S3]       the object store seen through the two SDK calls the server
                 makes, with a log of the operations performed;
    - [Multer]   the multipart middleware as configured by the server;
    - [Server]   the routes of [server.js];
    - [Spec]     the specification's predicates, in its own words;
    - [Answer]   names for what the routes send and answer;
    - [Demo]     a concrete deployment to run the routes on;
    - [Startup]  the reading of the environment at the top of the file;
    - [Client]   the script of the upload form, [Session] a round of it
                 against the server, [Sample] more values to run on;
    - lemmas on the built-ins, the middleware and the routes, then the
      properties the specification states. *)

From Stdlib Require Import ZArith NArith Ascii String List Bool Lia.
From Stdlib.Strings Require Import Byte.
From stdpp Require Import base gmap strings list.

Local Open Scope N_scope.

(** ** JavaScript built-ins *)

Module Js.

(** Strings are sequences of code units; every operation the server applies
    to them (concatenation, [slice], a character-class test) works one
    code unit at a time. *)

Fixpoint all_chars (p : ascii -> bool) (s : string) : bool :=
  match s with
  | EmptyString => true
  | String c r => p c && all_chars p r
  end.

Definition in_range (lo hi c : ascii) : bool :=
  (N_of_ascii lo <=? N_of_ascii c) && (N_of_ascii c <=? N_of_ascii hi).

(** [a || b] on strings: the empty string is falsy. *)
Definition or_else (a b : string) : string :=
  match a with
  | EmptyString => b
  | _ => a
  end.

(** [String.prototype.slice(start, end)]: negative indices count from the
    end, both are clamped to the string. *)
Definition slice (s : string) (from to : Z) : string :=
  let len := Z.of_nat (String.length s) in
  let lo := if (from <? 0)%Z then Z.max (len + from) 0 else Z.min from len in
  let hi := if (to <? 0)%Z then Z.max (len + to) 0 else Z.min to len in
  String.substring (Z.to_nat lo) (Z.to_nat (Z.max (hi - lo) 0)) s.

(** [s.replace(/\/+$/, "")]: the leftmost match of [\/+$] is the whole
    trailing run of slashes, which is removed. *)
Fixpoint strip_trailing_slashes (s : string) : string :=
  match s with
  | EmptyString => EmptyString
  | String c r =>
      match strip_trailing_slashes r with
      | EmptyString => if Ascii.eqb c "/" then EmptyString else String c EmptyString
      | r' => String c r'
      end
  end.

(** A thrown value, as far as the handlers look at it: its [message]
    property ([None] when undefined) and what [String(e)] gives. *)
Record Thrown := { message : option string; to_string : string }.

Definition Error (msg : string) : Thrown :=
  {| message := Some msg;
     to_string := match msg with
                  | EmptyString => "Error"
                  | _ => "Error: " +:+ msg
                  end |}.

(** [e?.message || fallback] *)
Definition message_or (e : Thrown) (fallback : string) : string :=
  match message e with
  | Some m => or_else m fallback
  | None => fallback
  end.

(** *** [crypto.randomUUID()]

    Node generates an RFC 4122 version 4 UUID: sixteen bytes from the
    CSPRNG, the version written into the high nibble of byte 6 and the
    variant into the two high bits of byte 8, serialised as lowercase hex
    in the 8-4-4-4-12 layout. *)

Definition u8 (n : N) : byte :=
  match Byte.of_N (n mod 256) with
  | Some b => b
  | None => x00
  end.

Definition hex_digit (n : N) : ascii :=
  match n with
  | 0 => "0" | 1 => "1" | 2 => "2" | 3 => "3"
  | 4 => "4" | 5 => "5" | 6 => "6" | 7 => "7"
  | 8 => "8" | 9 => "9" | 10 => "a" | 11 => "b"
  | 12 => "c" | 13 => "d" | 14 => "e" | _ => "f"
  end%char.

Definition kHexBytes (b : byte) : string :=
  String (hex_digit (N.shiftr (Byte.to_N b) 4))
    (String (hex_digit (N.land (Byte.to_N b) 15)) EmptyString).

(** [uuid[6] = (uuid[6] & 0x0f) | 0x40; uuid[8] = (uuid[8] & 0x3f) | 0x80] *)
Definition stamp_version (b : byte) : byte :=
  u8 (N.lor (N.land (Byte.to_N b) 0x0f) 0x40).

Definition stamp_variant (b : byte) : byte :=
  u8 (N.lor (N.land (Byte.to_N b) 0x3f) 0x80).

Definition uuid_byte (random : nat -> byte) (i : nat) : byte :=
  match i with
  | 6%nat => stamp_version (random 6%nat)
  | 8%nat => stamp_variant (random 8%nat)
  | _ => random i
  end.

(** [random i] is the [i]-th byte the CSPRNG hands out for this call. *)
Definition randomUUID (random : nat -> byte) : string :=
  let h i := kHexBytes (uuid_byte random i) in
  h 0%nat +:+ h 1%nat +:+ h 2%nat +:+ h 3%nat +:+ "-" +:+
  h 4%nat +:+ h 5%nat +:+ "-" +:+
  h 6%nat +:+ h 7%nat +:+ "-" +:+
  h 8%nat +:+ h 9%nat +:+ "-" +:+
  h 10%nat +:+ h 11%nat +:+ h 12%nat +:+ h 13%nat +:+ h 14%nat +:+ h 15%nat.

(** *** [new Date().toISOString()]

    A time value is the number of milliseconds since the epoch, UTC. *)

Local Open Scope Z_scope.

Definition msPerDay : Z := 86400000.
Definition Day (t : Z) : Z := t / msPerDay.
Definition HourFromTime (t : Z) : Z := (t / 3600000) mod 24.
Definition MinFromTime (t : Z) : Z := (t / 60000) mod 60.
Definition SecFromTime (t : Z) : Z := (t / 1000) mod 60.
Definition msFromTime (t : Z) : Z := t mod 1000.

(** Proleptic Gregorian date of a day number (days since 1970-01-01),
    computed per 400-year era starting on 1 March. *)
Definition civil_from_days (days : Z) : Z * Z * Z :=
  let z := days + 719468 in
  let era := z / 146097 in
  let doe := z - era * 146097 in
  let yoe := (doe - doe / 1460 + doe / 36524 - doe / 146096) / 365 in
  let doy := doe - (365 * yoe + yoe / 4 - yoe / 100) in
  let mp := (5 * doy + 2) / 153 in
  let d := doy - (153 * mp + 2) / 5 + 1 in
  let m := if mp <? 10 then mp + 3 else mp - 9 in
  let y := yoe + era * 400 + (if m <=? 2 then 1 else 0) in
  (y, m, d).

Definition dec_digit (n : Z) : ascii := ascii_of_N (48 + Z.to_N (n mod 10)).

(** The last [w] decimal digits of [n], zero-padded. *)
Fixpoint pad (w : nat) (n : Z) : string :=
  match w with
  | O => EmptyString
  | S w' => pad w' (n / 10) +:+ String (dec_digit n) EmptyString
  end.

Definition iso_year (y : Z) : string :=
  if (0 <=? y) && (y <=? 9999) then pad 4 y
  else if y <? 0 then "-" +:+ pad 6 (- y)
  else "+" +:+ pad 6 y.

Definition toISOString (t : Z) : string :=
  let '(y, m, d) := civil_from_days (Day t) in
  iso_year y +:+ "-" +:+ pad 2 m +:+ "-" +:+ pad 2 d +:+ "T" +:+
  pad 2 (HourFromTime t) +:+ ":" +:+ pad 2 (MinFromTime t) +:+ ":" +:+
  pad 2 (SecFromTime t) +:+ "." +:+ pad 3 (msFromTime t) +:+ "Z".

End Js.

(** ** The Express response object *)

Module Http.

Inductive Body :=
| Text (s : string)                       (* res.send / res.end *)
| Json (fields : list (string * string))  (* res.json of a flat object *)
| Redirecting (location : string).        (* body written by res.redirect *)

Record Response := {
  statusCode : N;
  headers : list (string * string);
  body : option Body
}.

(** A response nobody has touched yet: Express defaults to 200. *)
Definition fresh : Response :=
  {| statusCode := 200; headers := []; body := None |}.

Definition status (code : N) (r : Response) : Response :=
  {| statusCode := code; headers := headers r; body := body r |}.

Definition setHeader (name value : string) (r : Response) : Response :=
  {| statusCode := statusCode r;
     headers := (name, value) :: headers r;
     body := body r |}.

Definition finish (b : Body) (r : Response) : Response :=
  {| statusCode := statusCode r; headers := headers r; body := Some b |}.

(** [res.redirect(code, url)] sets the status and the Location header. *)
Definition redirect (code : N) (url : string) (r : Response) : Response :=
  finish (Redirecting url) (setHeader "Location" url (status code r)).

Definition is_client_error (r : Response) : bool :=
  (400 <=? statusCode r) && (statusCode r <=? 499).

End Http.

(** ** The object store, through the SDK calls the server makes *)

Module S3.

(** A Node [Buffer]: a length and the byte at each index. *)
Record Buffer := { byteLength : N; byteAt : N -> byte }.

Record PutObjectCommand := {
  put_Bucket : string;
  put_Key : string;
  put_Body : Buffer;
  ContentType : string;
  CacheControl : string;
  Metadata : list (string * string)
}.

Record GetObjectCommand := { Bucket : string; Key : string }.

(** What the server asked of the S3 client, most recent first. *)
Inductive Op :=
| Sent (c : PutObjectCommand)                      (* s3.send(new PutObjectCommand ..) *)
| Presigned (c : GetObjectCommand) (expiresIn : Z). (* getSignedUrl(s3, .., {expiresIn}) *)

Record Object := {
  content : Buffer;
  contentType : string;
  cacheControl : string;
  metadata : list (string * string)
}.

(** The buckets' contents, by (bucket, key), and the operation log. *)
Record World := {
  objects : gmap (string * string) Object;
  log : list Op
}.

Definition stored (c : PutObjectCommand) : Object :=
  {| content := put_Body c;
     contentType := ContentType c;
     cacheControl := CacheControl c;
     metadata := Metadata c |}.

Definition op_key (o : Op) : string :=
  match o with
  | Sent c => put_Key c
  | Presigned c _ => Key c
  end.

End S3.

(** ** Handler computations

    A handler runs against the store and the response object, both mutable,
    and either completes or throws; what it did before throwing stays done. *)

Inductive Completion (A : Type) :=
| Normal (a : A)
| Throw (e : Js.Thrown).
Arguments Normal {A} a.
Arguments Throw {A} e.

Record HState := { world : S3.World; res : Http.Response }.

Definition M (A : Type) : Type := HState -> Completion A * HState.

#[global] Instance M_ret : MRet M := fun A a st => (Normal a, st).

#[global] Instance M_bind : MBind M := fun A B f c st =>
  match c st with
  | (Normal a, st') => f a st'
  | (Throw e, st') => (Throw e, st')
  end.

Definition try_catch {A} (body : M A) (handler : Js.Thrown -> M A) : M A :=
  fun st =>
    match body st with
    | (Throw e, st') => handler e st'
    | done => done
    end.

Definition on_res (f : Http.Response -> Http.Response) : M () :=
  fun st => (Normal (), {| world := world st; res := f (res st) |}).

(** What one request meets that the code does not decide: the CSPRNG's
    output, the clock, and how the bucket and the signer behave. *)
Record Ambient := {
  random : nat -> byte;
  now : Z;
  put_fault : S3.PutObjectCommand -> option Js.Thrown;
  presigner : S3.GetObjectCommand -> Z -> Completion string
}.

(** [await s3.send(new PutObjectCommand(..))]: on success the object is
    readable under its key. A send that throws is taken to have written
    nothing: that is the store's side of the bargain, which the handler
    relies on and cannot check. *)
Definition s3_send (amb : Ambient) (c : S3.PutObjectCommand) : M () :=
  fun st =>
    let w := world st in
    let logged := S3.Sent c :: S3.log w in
    match put_fault amb c with
    | Some e =>
        (Throw e,
         {| world := {| S3.objects := S3.objects w; S3.log := logged |};
            res := res st |})
    | None =>
        (Normal (),
         {| world := {| S3.objects :=
                          <[(S3.put_Bucket c, S3.put_Key c) := S3.stored c]> (S3.objects w);
                        S3.log := logged |};
            res := res st |})
    end.

(** [await getSignedUrl(s3, new GetObjectCommand(..), { expiresIn })]: the
    presigner computes from the client and the command alone. *)
Definition getSignedUrl (amb : Ambient) (c : S3.GetObjectCommand) (expiresIn : Z)
  : M string :=
  fun st =>
    let w := world st in
    (presigner amb c expiresIn,
     {| world := {| S3.objects := S3.objects w;
                    S3.log := S3.Presigned c expiresIn :: S3.log w |};
        res := res st |}).

(** ** Multer, as far as [upload.single] with memory storage goes

    Multer is a dependency of the server, not part of it. The model follows
    its documented behaviour: file parts are handled in order of arrival; a
    part without a filename is not a file; a file on a field that is not
    expected (or expected no more) aborts with LIMIT_UNEXPECTED_FILE; then
    the configured [fileFilter] decides; then the body is buffered, and a
    body larger than [limits.fileSize] aborts with LIMIT_FILE_SIZE. The first
    error ends the request through [next(err)]. *)

Module Multer.

(** A file part as the parser reports it to the middleware. *)
Record FilePart := {
  fieldname : string;
  filename : string;     (* the declared filename, without its path *)
  mimetype : string;     (* the media type read off the declared Content-Type *)
  data : S3.Buffer
}.

(** [req.file] *)
Record File := {
  originalname : string;
  file_mimetype : string;
  buffer : S3.Buffer;
  file_size : N
}.

Record Options := {
  fileSize : N;
  fileFilter : FilePart -> Completion bool
}.

Inductive Code := LIMIT_FILE_SIZE | LIMIT_UNEXPECTED_FILE.

Definition errorMessage (c : Code) : string :=
  match c with
  | LIMIT_FILE_SIZE => "File too large"
  | LIMIT_UNEXPECTED_FILE => "Unexpected field"
  end.

Definition MulterError (c : Code) : Js.Thrown :=
  {| Js.message := Some (errorMessage c);
     Js.to_string := "MulterError: " +:+ errorMessage c |}.

Inductive Outcome :=
| Next (file : option File)   (* next(), with req.file as given *)
| NextErr (e : Js.Thrown).    (* next(err) *)

Fixpoint files (opts : Options) (field : string) (filesLeft : nat)
    (parts : list FilePart) (file : option File) : Outcome :=
  match parts with
  | [] => Next file
  | p :: rest =>
      if String.eqb (filename p) "" then files opts field filesLeft rest file
      else
        match (if String.eqb (fieldname p) field then filesLeft else O) with
        | O => NextErr (MulterError LIMIT_UNEXPECTED_FILE)
        | S remaining =>
            match fileFilter opts p with
            | Throw e => NextErr e
            | Normal false => files opts field remaining rest file
            | Normal true =>
                if (fileSize opts <? S3.byteLength (data p))%N
                then NextErr (MulterError LIMIT_FILE_SIZE)
                else files opts field remaining rest
                       (Some {| originalname := filename p;
                                file_mimetype := mimetype p;
                                buffer := data p;
                                file_size := S3.byteLength (data p) |})
            end
        end
  end.

(** [multer(opts).single(field)] applied to the file parts of a request. *)
Definition single (opts : Options) (field : string) (parts : list FilePart) : Outcome :=
  files opts field 1 parts None.

(** *** From the wire to the parser's report

    [file.mimetype] is not the part's Content-Type header as declared: the
    multipart parser under multer reads the header down to its media type,
    the type and the subtype, lower-cased, with any parameters dropped. A
    header that names no media type leaves the part reported as text/plain.
    The parameters themselves are not looked into here; a parser that turns
    down a header over a malformed parameter reports text/plain for it. *)

Record Part := {
  part_name : string;        (* the field the part is on *)
  part_filename : string;
  content_type : string;     (* the Content-Type header as declared *)
  part_body : S3.Buffer
}.

(** The characters of an HTTP token. *)
Definition tchar (c : ascii) : bool :=
  Js.in_range "0" "9" c || Js.in_range "a" "z" c || Js.in_range "A" "Z" c
  || existsb (Ascii.eqb c) (list_ascii_of_string "!#$%&'*+-.^_`|~").

Definition lower (c : ascii) : ascii :=
  if Js.in_range "A" "Z" c then ascii_of_N (N_of_ascii c + 32) else c.

Fixpoint toLowerCase (s : string) : string :=
  match s with
  | EmptyString => EmptyString
  | String c r => String (lower c) (toLowerCase r)
  end.

(** The longest token [s] starts with, and what follows it. *)
Fixpoint token (s : string) : string * string :=
  match s with
  | EmptyString => (EmptyString, EmptyString)
  | String c r =>
      if tchar c then let '(t, rest) := token r in (String c t, rest)
      else (EmptyString, s)
  end.

Fixpoint skip_blanks (s : string) : string :=
  match s with
  | EmptyString => EmptyString
  | String c r =>
      if Ascii.eqb c " " || Ascii.eqb c "009" then skip_blanks r else s
  end.

Definition mediaType (declared : string) : string :=
  let '(type, after_type) := token (skip_blanks declared) in
  match type, after_type with
  | String _ _, String "/"%char after_slash =>
      let '(subtype, rest) := token after_slash in
      match subtype, skip_blanks rest with
      | String _ _, EmptyString
      | String _ _, String ";"%char _ =>
          toLowerCase type +:+ "/" +:+ toLowerCase subtype
      | _, _ => "text/plain"
      end
  | _, _ => "text/plain"
  end.


End Multer.

(** ** The server *)

Module Server.

(** [process.env], and the static text of the two pages. *)
Record Config := {
  S3_BUCKET : string;
  PUBLIC_BASE_URL : string;
  ui_page : string;     (* uiHtml() *)
  view_head : string;   (* viewHtml: the template up to the source URL *)
  view_tail : string    (* viewHtml: the template after the identifier *)
}.

(** [/^[0-9a-fA-F-]{20,}$/.test(id)]: the whole string is twenty or more
    characters of the class. *)
Definition id_char (c : ascii) : bool :=
  Js.in_range "0" "9" c || Js.in_range "a" "f" c || Js.in_range "A" "F" c
  || Ascii.eqb c "-".

Definition validId (id : string) : bool :=
  Js.all_chars id_char id && (20 <=? String.length id)%nat.

Definition uiHtml (cfg : Config) : string := ui_page cfg.

Definition viewHtml (cfg : Config) (id : string) : string :=
  view_head cfg +:+ "/raw/" +:+ id +:+ view_tail cfg.

(** [multer({ storage: memoryStorage(), limits: { fileSize }, fileFilter })] *)
Definition upload : Multer.Options :=
  {| Multer.fileSize := 250 * 1024 * 1024;
     Multer.fileFilter := fun file =>
       if negb (String.eqb (Multer.mimetype file) "video/mp4")
       then Throw (Js.Error "Only video/mp4 allowed")
       else Normal true |}.

(** [app.get("/")] *)
Definition index_handler (cfg : Config) : M () :=
  on_res (Http.setHeader "content-type" "text/html; charset=utf-8") ;;
  on_res (Http.setHeader "cache-control" "no-store") ;;
  on_res (Http.finish (Http.Text (uiHtml cfg))).

(** [app.post("/upload", upload.single("file"), async (req, res) => ..)],
    the handler proper; [file] is [req.file]. *)
Definition upload_handler (cfg : Config) (amb : Ambient)
    (file : option Multer.File) : M () :=
  try_catch
    (match file with
     | None =>
         on_res (Http.status 400) ;;
         on_res (Http.finish (Http.Json [("error", "Missing file")]))
     | Some f =>
         let id := Js.randomUUID (random amb) in
         let key := id +:+ ".mp4" in
         s3_send amb
           {| S3.put_Bucket := S3_BUCKET cfg;
              S3.put_Key := key;
              S3.put_Body := Multer.buffer f;
              S3.ContentType := "video/mp4";
              S3.CacheControl := "public, max-age=31536000, immutable";
              S3.Metadata :=
                [("originalname",
                  Js.slice (Js.or_else (Multer.originalname f) "video.mp4") 0 200);
                 ("uploadedat", Js.toISOString (now amb))] |} ;;
         let pageUrl :=
           Js.strip_trailing_slashes (PUBLIC_BASE_URL cfg) +:+ "/v/" +:+ id in
         on_res (Http.finish (Http.Json [("id", id); ("url", pageUrl)]))
     end)
    (fun e =>
       on_res (Http.status 500) ;;
       on_res (Http.finish
                 (Http.Json [("error", Js.message_or e (Js.to_string e))]))).

(** [app.get("/v/:id")] *)
Definition view_handler (cfg : Config) (id : string) : M () :=
  if negb (validId id) then
    on_res (Http.status 400) ;; on_res (Http.finish (Http.Text "Bad id"))
  else
    on_res (Http.setHeader "content-type" "text/html; charset=utf-8") ;;
    on_res (Http.setHeader "cache-control" "no-store") ;;
    on_res (Http.finish (Http.Text (viewHtml cfg id))).

(** [app.get("/raw/:id")] *)
Definition raw_handler (cfg : Config) (amb : Ambient) (id : string) : M () :=
  try_catch
    (if negb (validId id) then
       on_res (Http.status 400) ;; on_res (Http.finish (Http.Text "Bad id"))
     else
       let key := id +:+ ".mp4" in
       signed ← getSignedUrl amb
                  {| S3.Bucket := S3_BUCKET cfg; S3.Key := key |}
                  (60 * 10) ;
       on_res (Http.setHeader "cache-control" "no-store") ;;
       on_res (Http.redirect 302 signed))
    (fun e =>
       on_res (Http.status 404) ;; on_res (Http.finish (Http.Text "Not found"))).

(** [app.use((err, req, res, next) => ..)] *)
Definition error_middleware (err : Js.Thrown) : M () :=
  on_res (Http.status 400) ;;
  on_res (Http.finish (Http.Json [("error", Js.message_or err "Bad request")])).

(** Running a route: a fresh response object, the store as it stands with
    an empty log; the result is the response sent and the store after. *)
Definition serve (h : M ()) (objects : gmap (string * string) S3.Object)
  : Http.Response * S3.World :=
  let st := snd (h {| world := {| S3.objects := objects; S3.log := [] |};
                      res := Http.fresh |}) in
  (res st, world st).

Definition GET_index (cfg : Config) := serve (index_handler cfg).

Definition POST_upload (cfg : Config) (amb : Ambient)
    (parts : list Multer.FilePart) :=
  serve (match Multer.single upload "file" parts with
         | Multer.Next file => upload_handler cfg amb file
         | Multer.NextErr err => error_middleware err
         end).

Definition GET_v (cfg : Config) (id : string) := serve (view_handler cfg id).

Definition GET_raw (cfg : Config) (amb : Ambient) (id : string) :=
  serve (raw_handler cfg amb id).

End Server.

(** ** The specification's vocabulary

    The Identifier Format Predicate and the key mapping, written after the
    specification's words; the theorems below relate them to the code. *)

Module Spec.

Definition occurs (c : ascii) (s : string) : Prop :=
  In c (list_ascii_of_string s).

Definition hex_digits : string := "0123456789abcdefABCDEF".

Definition is_hex_digit (c : ascii) : Prop := occurs c hex_digits.

(** "a string of 20+ characters drawn only from hex digits and hyphens" *)
Definition format_ok (id : string) : Prop :=
  (20 <= String.length id)%nat /\
  forall c, occurs c id -> is_hex_digit c \/ c = "-"%char.

(** "fewer than 20 characters, or containing any character other than a
    hex digit or hyphen" *)
Definition format_fails (id : string) : Prop :=
  (String.length id < 20)%nat \/
  exists c, occurs c id /\ ~ (is_hex_digit c \/ c = "-"%char).

(** "key = id + extension" *)
Definition key_of (id : string) : string := id +:+ ".mp4".

(** "truncate(filename, 200)": the first [n] characters. *)
Fixpoint truncate (n : nat) (s : string) : string :=
  match n, s with
  | S n', String c r => String c (truncate n' r)
  | _, _ => EmptyString
  end.

(** "any id never uploaded": the bucket holds nothing under its key. *)
Definition never_uploaded (cfg : Server.Config)
    (objects : gmap (string * string) S3.Object) (id : string) : Prop :=
  objects !! (Server.S3_BUCKET cfg, key_of id) = None.

Fixpoint last_char (s : string) : option ascii :=
  match s with
  | EmptyString => None
  | String c EmptyString => Some c
  | String _ r => last_char r
  end.

Fixpoint slashes (n : nat) : string :=
  match n with
  | O => EmptyString
  | S n' => String "/" (slashes n')
  end.

(** *** The bits of a token

    Read most significant bit first, four per hex digit, hyphens skipped. *)

Definition hex_value (c : ascii) : option N :=
  if Js.in_range "0" "9" c then Some (N_of_ascii c - 48)
  else if Js.in_range "a" "f" c then Some (N_of_ascii c - 87)
  else if Js.in_range "A" "F" c then Some (N_of_ascii c - 55)
  else None.

Definition nibble_bits (n : N) : list bool :=
  [N.testbit n 3; N.testbit n 2; N.testbit n 1; N.testbit n 0].

Fixpoint token_bits (s : string) : list bool :=
  match s with
  | EmptyString => []
  | String c r =>
      match hex_value c with
      | Some n => nibble_bits n ++ token_bits r
      | None => token_bits r
      end
  end.

Definition byte_bits (b : byte) : list bool :=
  let n := Byte.to_N b in
  [N.testbit n 7; N.testbit n 6; N.testbit n 5; N.testbit n 4;
   N.testbit n 3; N.testbit n 2; N.testbit n 1; N.testbit n 0].

(** The sixteen bytes the CSPRNG handed out, as 128 bits. *)
Definition entropy_bits (random : nat -> byte) : list bool :=
  flat_map (fun i => byte_bits (random i)) (seq 0 16).

(** "all 128 bits of the resulting token are drawn from the randomness
    source (none are fixed by the format)" *)
Definition all_bits_random (random : nat -> byte) : Prop :=
  token_bits (Js.randomUUID random) = entropy_bits random.

(** What RFC 4122 fixes in a version 4 UUID: the version nibble 0100 at bits
    48..51 and the variant 10 at bits 64..65. *)
Definition v4_stamp (bits : list bool) : list bool :=
  <[48%nat := false]> (<[49%nat := true]> (<[50%nat := false]> (<[51%nat := false]>
    (<[64%nat := true]> (<[65%nat := false]> bits))))).

Definition v4_fixed : list nat := [48; 49; 50; 51; 64; 65]%nat.

Definition hyphen_positions : list nat := [8; 13; 18; 23]%nat.

(** "lowercase hex": the digits a UUID is written with. *)
Definition lower_hex_digits : string := "0123456789abcdef".

Definition is_lower_hex (c : ascii) : bool :=
  existsb (Ascii.eqb c) (list_ascii_of_string lower_hex_digits).

(** The 8-4-4-4-12 layout from position [i] on: a hyphen at each hyphen
    position, a lowercase hex digit everywhere else. *)
Fixpoint layout_from (i : nat) (s : string) : bool :=
  match s with
  | EmptyString => true
  | String c r =>
      (if existsb (Nat.eqb i) hyphen_positions then Ascii.eqb c "-"
       else is_lower_hex c)
      && layout_from (S i) r
  end.

(** The same class as a table lookup. *)
Definition hex_digit_b (c : ascii) : bool :=
  existsb (Ascii.eqb c) (list_ascii_of_string hex_digits).

Local Open Scope Z_scope.

(** *** Reading a timestamp

    "current UTC timestamp": what instant a string in the ISO 8601 form
    YYYY-MM-DDTHH:mm:ss.sssZ names. The year has four digits, or a sign and
    six; the trailing Z says the fields are UTC. The instant is counted in
    milliseconds from 1970-01-01T00:00:00.000Z in the proleptic Gregorian
    calendar. *)

Definition digit_of (c : ascii) : option Z :=
  if Js.in_range "0" "9" c then Some (Z.of_N (N_of_ascii c) - 48) else None.

(** Reads [w] decimal digits off the front of [s], after the digits [acc]. *)
Fixpoint digits (w : nat) (acc : Z) (s : string) : option (Z * string) :=
  match w, s with
  | O, _ => Some (acc, s)
  | S w', String c r =>
      match digit_of c with
      | Some d => digits w' (10 * acc + d) r
      | None => None
      end
  | S _, EmptyString => None
  end.

Definition expect (c : ascii) (s : string) : option string :=
  match s with
  | String c' r => if Ascii.eqb c' c then Some r else None
  | EmptyString => None
  end.

Definition read_year (s : string) : option (Z * string) :=
  match s with
  | String c r =>
      if Ascii.eqb c "+" then digits 6 0 r
      else if Ascii.eqb c "-" then
        match digits 6 0 r with
        | Some (y, rest) => Some (- y, rest)
        | None => None
        end
      else digits 4 0 s
  | EmptyString => None
  end.

Definition leap_year (y : Z) : bool :=
  (y mod 4 =? 0) && (negb (y mod 100 =? 0) || (y mod 400 =? 0)).

Definition days_in_month (y m : Z) : Z :=
  if m =? 2 then (if leap_year y then 29 else 28)
  else if (m =? 4) || (m =? 6) || (m =? 9) || (m =? 11) then 30
  else 31.

(** Days from the epoch to 1 January of year [y]. *)
Definition days_to_year (y : Z) : Z :=
  365 * (y - 1970) + (y - 1969) / 4 - (y - 1901) / 100 + (y - 1601) / 400.

(** Days from 1 January to the first of month [m] in a common year. *)
Definition days_to_month (m : Z) : Z :=
  match m with
  | 1 => 0 | 2 => 31 | 3 => 59 | 4 => 90 | 5 => 120 | 6 => 151
  | 7 => 181 | 8 => 212 | 9 => 243 | 10 => 273 | 11 => 304 | _ => 334
  end.

Definition day_number (y m d : Z) : Z :=
  days_to_year y + days_to_month m
  + (if leap_year y && (3 <=? m) then 1 else 0) + (d - 1).

Definition utc_instant (y m d h mi s ms : Z) : option Z :=
  if (1 <=? m) && (m <=? 12) && (1 <=? d) && (d <=? days_in_month y m)
     && (h <? 24) && (mi <? 60) && (s <? 60)
  then Some (day_number y m d * 86400000
             + h * 3600000 + mi * 60000 + s * 1000 + ms)
  else None.

Definition read_timestamp (s : string) : option Z :=
  '(y, s) ← read_year s;
  s ← expect "-" s;
  '(m, s) ← digits 2 0 s;
  s ← expect "-" s;
  '(d, s) ← digits 2 0 s;
  s ← expect "T" s;
  '(h, s) ← digits 2 0 s;
  s ← expect ":" s;
  '(mi, s) ← digits 2 0 s;
  s ← expect ":" s;
  '(sec, s) ← digits 2 0 s;
  s ← expect "." s;
  '(ms, s) ← digits 3 0 s;
  s ← expect "Z" s;
  match s with
  | EmptyString => utc_instant y m d h mi sec ms
  | String _ _ => None
  end.

(** The time values of a Date: 100 000 000 days either side of the epoch. *)
Definition time_value (t : Z) : Prop :=
  -8640000000000000 <= t <= 8640000000000000.

End Spec.

(** ** Names for what the routes send and answer *)

Module Answer.

Definition bad_id : Http.Response :=
  {| Http.statusCode := 400; Http.headers := []; Http.body := Some (Http.Text "Bad id") |}.

Definition not_found : Http.Response :=
  {| Http.statusCode := 404; Http.headers := []; Http.body := Some (Http.Text "Not found") |}.

Definition found (url : string) : Http.Response :=
  {| Http.statusCode := 302;
     Http.headers := [("Location", url); ("cache-control", "no-store")];
     Http.body := Some (Http.Redirecting url) |}.

(** The store after a request that performed no operation on it. *)
Definition untouched (objects : gmap (string * string) S3.Object) : S3.World :=
  {| S3.objects := objects; S3.log := [] |}.

(** [req.file] for a part the middleware accepts. *)
Definition file_of (p : Multer.FilePart) : Multer.File :=
  {| Multer.originalname := Multer.filename p;
     Multer.file_mimetype := Multer.mimetype p;
     Multer.buffer := Multer.data p;
     Multer.file_size := S3.byteLength (Multer.data p) |}.

(** What it takes for the middleware to hand a part over as [req.file]. *)
Definition accepted (field : string) (p : Multer.FilePart) (f : Multer.File) : Prop :=
  Multer.filename p <> "" /\
  Multer.fieldname p = field /\
  Multer.mimetype p = "video/mp4" /\
  S3.byteLength (Multer.data p) <= 250 * 1024 * 1024 /\
  f = file_of p.

(** The command the handler sends for a file it was handed. *)
Definition sent_for (cfg : Server.Config) (amb : Ambient) (f : Multer.File) : S3.PutObjectCommand :=
  {| S3.put_Bucket := Server.S3_BUCKET cfg;
     S3.put_Key := Js.randomUUID (random amb) +:+ ".mp4";
     S3.put_Body := Multer.buffer f;
     S3.ContentType := "video/mp4";
     S3.CacheControl := "public, max-age=31536000, immutable";
     S3.Metadata :=
       [("originalname", Js.slice (Js.or_else (Multer.originalname f) "video.mp4") 0 200);
        ("uploadedat", Js.toISOString (now amb))] |}.

Definition error_response (code : N) (msg : string) : Http.Response :=
  {| Http.statusCode := code; Http.headers := [];
     Http.body := Some (Http.Json [("error", msg)]) |}.

Definition upload_response (cfg : Server.Config) (amb : Ambient) : Http.Response :=
  {| Http.statusCode := 200; Http.headers := [];
     Http.body :=
       Some (Http.Json
               [("id", Js.randomUUID (random amb));
                ("url", Js.strip_trailing_slashes (Server.PUBLIC_BASE_URL cfg)
                        +:+ "/v/" +:+ Js.randomUUID (random amb))]) |}.

End Answer.

(** ** A concrete deployment, to run the routes on *)

Module Demo.

Definition cfg : Server.Config :=
  {| Server.S3_BUCKET := "videos";
     Server.PUBLIC_BASE_URL := "https://example.com/";
     Server.ui_page := "<form>";
     Server.view_head := "<video><source src='";
     Server.view_tail := "'></video>" |}.

(** A presigner that, like the SDK's, signs whatever key it is given. *)
Definition presign (c : S3.GetObjectCommand) (expiresIn : Z) : Completion string :=
  Normal ("https://s3.example/" +:+ S3.Bucket c +:+ "/" +:+ S3.Key c
          +:+ "?X-Amz-Expires=" +:+ Js.pad 3 expiresIn).

Definition amb : Ambient :=
  {| random := fun i => Js.u8 (N.of_nat (17 * i));
     now := 1700000000000;
     put_fault := fun _ => None;
     presigner := presign |}.

(** The same request met by a backend that is out of reach. *)
Definition unreachable : Js.Thrown := Js.Error "connect ECONNREFUSED".

Definition offline : Ambient :=
  {| random := random amb;
     now := now amb;
     put_fault := fun _ => Some unreachable;
     presigner := fun _ _ => Throw unreachable |}.

Definition zeros (n : N) : S3.Buffer :=
  {| S3.byteLength := n; S3.byteAt := fun _ => x00 |}.

Definition clip (type : string) (bytes : N) : Multer.FilePart :=
  {| Multer.fieldname := "file";
     Multer.filename := "clip.mp4";
     Multer.mimetype := type;
     Multer.data := zeros bytes |}.

Definition uuid : string := "00112233-4455-4677-8899-aabbccddeeff".

End Demo.

(** ** The check of the environment

    The top of [server.js]: the environment is read once and the process
    exits when a required variable is unset or empty. What passes the check
    goes on to [new S3Client] and [app.listen], which are the SDK's and
    Node's and may still refuse what they are given; they are not part of
    this model. *)

Module Startup.

Record S3ClientConfig := {
  region : string;
  endpoint : string;
  accessKeyId : string;
  secretAccessKey : string;
  forcePathStyle : bool
}.

(** [process.env.PORT || 10000], as handed to [app.listen]: the variable's
    text, or the number. *)
Inductive Port :=
| EnvPort (text : string)
| DefaultPort (n : N).

Record Process := {
  s3 : S3ClientConfig;
  bucket : string;
  public_base_url : string;
  port : Port
}.

(** [!x] for a variable of the environment: unset, or the empty string. *)
Definition falsy (x : option string) : bool :=
  match x with
  | Some (String _ _) => false
  | _ => true
  end.

(** The variables the error message asks for. *)
Definition needed : list string :=
  ["S3_ENDPOINT"; "S3_ACCESS_KEY_ID"; "S3_SECRET_ACCESS_KEY"; "S3_BUCKET";
   "PUBLIC_BASE_URL"].

(** [None] is the [process.exit(1)] of the check; otherwise the values the
    rest of the file is run with. A destructuring default applies to an
    unset variable only. *)
Definition check_env (env : gmap string string) : option Process :=
  let S3_ENDPOINT := env !! "S3_ENDPOINT" in
  let S3_REGION := default "auto" (env !! "S3_REGION") in
  let S3_ACCESS_KEY_ID := env !! "S3_ACCESS_KEY_ID" in
  let S3_SECRET_ACCESS_KEY := env !! "S3_SECRET_ACCESS_KEY" in
  let S3_BUCKET := env !! "S3_BUCKET" in
  let PUBLIC_BASE_URL := env !! "PUBLIC_BASE_URL" in
  if falsy S3_ENDPOINT || falsy S3_ACCESS_KEY_ID || falsy S3_SECRET_ACCESS_KEY
     || falsy S3_BUCKET || falsy PUBLIC_BASE_URL
  then None
  else
    Some {| s3 := {| region := S3_REGION;
                     endpoint := default "" S3_ENDPOINT;
                     accessKeyId := default "" S3_ACCESS_KEY_ID;
                     secretAccessKey := default "" S3_SECRET_ACCESS_KEY;
                     forcePathStyle := true |};
            bucket := default "" S3_BUCKET;
            public_base_url := default "" PUBLIC_BASE_URL;
            port := if falsy (env !! "PORT") then DefaultPort 10000
                    else EnvPort (default "" (env !! "PORT")) |}.

End Startup.

(** ** The upload form's script

    The script of the page [uiHtml] returns. The page is the handful of
    elements the script touches; the fixed texts it writes are constructors
    ([NoFileChosen] is the text under the button before a file is picked,
    [PageLink] the line with the link, [Failed] the line with the cross). *)

Module Client.

(** A [File] picked in the file input. *)
Record File := { name : string; type : string; contents : S3.Buffer }.

Definition size (f : File) : N := S3.byteLength (contents f).

Inductive Notice :=
| NoFileChosen
| NotMp4
| Chosen (name : string) (megabytes : N).

Inductive Message :=
| Said (text : string)        (* the server's or the exception's message *)
| UploadFailed (status : N).  (* the fallback text with [res.status] *)

Inductive Output :=
| Blank
| PageLink (url : string)
| Failed (m : Message).

Record Page := {
  file : option File;    (* the script's [file] variable *)
  go_disabled : bool;    (* go.disabled *)
  sp_shown : bool;       (* the spinner *)
  nm : Notice;           (* nm.textContent *)
  out_shown : bool;      (* out.style.display *)
  out : Output           (* out's content *)
}.

(** The page as served: no file, the button disabled, nothing shown. *)
Definition loaded : Page :=
  {| file := None; go_disabled := true; sp_shown := false;
     nm := NoFileChosen; out_shown := false; out := Blank |}.

(** [Math.round(file.size/1024/1024)]: the division by a power of two is
    exact, and [Math.round] rounds halves up. *)
Definition megabytes (bytes : N) : N := (bytes + 524288) / 1048576.

(** The input's [change] listener; [files] is [f.files]. *)
Definition change (files : list File) (pg : Page) : Page :=
  match files with
  | [] =>
      {| file := None; go_disabled := true; sp_shown := sp_shown pg;
         nm := NoFileChosen; out_shown := out_shown pg; out := out pg |}
  | f :: _ =>
      if negb (String.eqb (type f) "video/mp4") then
        {| file := None; go_disabled := true; sp_shown := sp_shown pg;
           nm := NotMp4; out_shown := out_shown pg; out := out pg |}
      else
        {| file := Some f; go_disabled := false; sp_shown := sp_shown pg;
           nm := Chosen (name f) (megabytes (size f));
           out_shown := false; out := Blank |}
  end.

(** [fd.append('file', file, file.name)] *)
Definition form_data (f : File) : list Multer.FilePart :=
  [{| Multer.fieldname := "file";
      Multer.filename := name f;
      Multer.mimetype := type f;
      Multer.data := contents f |}].

(** The button's [click] listener up to its [await fetch(..)]: the page as
    it stands while the request is out, and the request, if one is sent. *)
Definition click (pg : Page) : Page * option (list Multer.FilePart) :=
  match file pg with
  | None => (pg, None)
  | Some f =>
      ({| file := file pg; go_disabled := true; sp_shown := true;
          nm := nm pg; out_shown := false; out := Blank |},
       Some (form_data f))
  end.

(** What [fetch] settles with. *)
Inductive Fetched :=
| Rejected (e : Js.Thrown)
| Responded (r : Http.Response).

(** [res.ok] *)
Definition ok (r : Http.Response) : bool :=
  (200 <=? Http.statusCode r) && (Http.statusCode r <=? 299).

(** [await res.json().catch(() => null)] *)
Definition json (r : Http.Response) : option (list (string * string)) :=
  match Http.body r with
  | Some (Http.Json fields) => Some fields
  | _ => None
  end.

(** [j.key], for a [j] that may be null; an empty string counts as absent
    wherever the script reads one. *)
Fixpoint prop (key : string) (fields : list (string * string)) : option string :=
  match fields with
  | [] => None
  | (k, v) :: rest => if String.eqb k key then Some v else prop key rest
  end.

Definition truthy (j : option (list (string * string))) (key : string) : option string :=
  match j with
  | Some fields =>
      match prop key fields with
      | Some (String c r) => Some (String c r)
      | _ => None
      end
  | None => None
  end.

(** The rest of the [click] listener, once [fetch] has settled. *)
Definition settle (o : Fetched) (pg : Page) : Page :=
  let shown :=
    match o with
    | Rejected e => Failed (Said (Js.message_or e (Js.to_string e)))
    | Responded r =>
        let j := json r in
        match (if ok r then truthy j "url" else None) with
        | Some url => PageLink url
        | None =>
            match truthy j "error", truthy j "message" with
            | Some m, _ => Failed (Said m)
            | None, Some m => Failed (Said m)
            | None, None => Failed (UploadFailed (Http.statusCode r))
            end
        end
    end in
  {| file := file pg; go_disabled := false; sp_shown := false;
     nm := nm pg; out_shown := true; out := shown |}.

(** What can happen to the page, in any order. *)
Inductive Event :=
| Picked (files : list File)
| Clicked
| Settled (o : Fetched).

(** One event: the page after it and the request it sent, if any. *)
Definition step (pg : Page) (ev : Event) : Page * option (list Multer.FilePart) :=
  match ev with
  | Picked files => (change files pg, None)
  | Clicked => click pg
  | Settled o => (settle o pg, None)
  end.

(** The page after a run of events and the requests sent on the way, in
    order. *)
Fixpoint run (pg : Page) (evs : list Event) : Page * list (list Multer.FilePart) :=
  match evs with
  | [] => (pg, [])
  | ev :: rest =>
      let '(pg', sent) := step pg ev in
      let '(last, more) := run pg' rest in
      (last, match sent with Some req => req :: more | None => more end)
  end.

(** Whatever file the script holds is a video/mp4 file. *)
Definition mp4_only (pg : Page) : Prop :=
  forall f, file pg = Some f -> type f = "video/mp4".

End Client.

(** ** The form against the server

    One round of the form: the user picks, clicks, the request (if the
    script sends one) is served, and the script shows what came back. *)

Module Session.

Definition pick_and_send (cfg : Server.Config) (amb : Ambient)
    (objs : gmap (string * string) S3.Object)
    (files : list Client.File) (pg : Client.Page) : Client.Page * S3.World :=
  let '(waiting, request) := Client.click (Client.change files pg) in
  match request with
  | None => (waiting, {| S3.objects := objs; S3.log := [] |})
  | Some parts =>
      let '(response, w) := Server.POST_upload cfg amb parts objs in
      (Client.settle (Client.Responded response) waiting, w)
  end.

End Session.

(** ** More sample values *)

Module Sample.

Definition env : gmap string string :=
  <["S3_ENDPOINT" := "https://s3.example"]>
    (<["S3_ACCESS_KEY_ID" := "key"]>
       (<["S3_SECRET_ACCESS_KEY" := "secret"]>
          (<["S3_BUCKET" := "videos"]>
             (<["PUBLIC_BASE_URL" := "https://example.com/"]> ∅)))).

(** A second request, met by other bytes from the CSPRNG. *)
Definition later : Ambient :=
  {| random := fun _ => xff;
     now := 1700000060000;
     put_fault := fun _ => None;
     presigner := Demo.presign |}.

(** Parts as a client may declare them. *)
Definition declared (type : string) : Multer.Part :=
  {| Multer.part_name := "file";
     Multer.part_filename := "clip.mp4";
     Multer.content_type := type;
     Multer.part_body := Demo.zeros 10 |}.

Definition video : Client.File :=
  {| Client.name := "clip.mp4"; Client.type := "video/mp4";
     Client.contents := Demo.zeros 10 |}.

Definition picture : Client.File :=
  {| Client.name := "cat.png"; Client.type := "image/png";
     Client.contents := Demo.zeros 10 |}.

End Sample.

(** The first named part of a request on the expected field. *)
Ltac first_named_part Hname Hfield :=
  unfold Multer.single; cbn [Multer.files];
  apply String.eqb_neq in Hname; rewrite Hname, Hfield, String.eqb_refl.

(** Replaces a closed term by its value, in the goal or in a hypothesis. *)
Ltac calc t := let v := eval vm_compute in t in change t with v.
Ltac calc_in t H := let v := eval vm_compute in t in change t with v in H.

(** ** The built-ins on sample inputs *)

Example toISOString_epoch : Js.toISOString 0 = "1970-01-01T00:00:00.000Z".
Proof. reflexivity. Qed.

Example read_timestamp_sample :
  Spec.read_timestamp "2023-11-14T22:13:20.000Z" = Some 1700000000000%Z.
Proof. reflexivity. Qed.

Example read_timestamp_needs_a_calendar_date :
  Spec.read_timestamp "2023-02-29T23:59:59.999Z" = None.
Proof. reflexivity. Qed.

Example read_timestamp_needs_the_utc_designator :
  Spec.read_timestamp "2023-11-14T22:13:20.000" = None.
Proof. reflexivity. Qed.

Example toISOString_first_time_value :
  Js.toISOString (-8640000000000000) = "-271821-04-20T00:00:00.000Z".
Proof. reflexivity. Qed.

Example toISOString_last_time_value :
  Js.toISOString 8640000000000000 = "+275760-09-13T00:00:00.000Z".
Proof. reflexivity. Qed.

Example mediaType_lower_cases : Multer.mediaType "VIDEO/MP4" = "video/mp4".
Proof. reflexivity. Qed.

Example mediaType_drops_parameters :
  Multer.mediaType "video/mp4; codecs=avc1" = "video/mp4".
Proof. reflexivity. Qed.

Example mediaType_without_subtype : Multer.mediaType "video" = "text/plain".
Proof. reflexivity. Qed.

Example toISOString_leap_day :
  Js.toISOString 1709251199999 = "2024-02-29T23:59:59.999Z".
Proof. reflexivity. Qed.

Example toISOString_before_epoch :
  Js.toISOString (-1) = "1969-12-31T23:59:59.999Z".
Proof. reflexivity. Qed.

Example toISOString_extended_year :
  Js.toISOString 253402300800000 = "+010000-01-01T00:00:00.000Z".
Proof. reflexivity. Qed.

Example randomUUID_sample : Js.randomUUID (random Demo.amb) = Demo.uuid.
Proof. reflexivity. Qed.

Example randomUUID_all_ones :
  Js.randomUUID (fun _ => xff) = "ffffffff-ffff-4fff-bfff-ffffffffffff".
Proof. reflexivity. Qed.

Example slice_short : Js.slice "clip.mp4" 0 200 = "clip.mp4".
Proof. reflexivity. Qed.

Example slice_cut : Js.slice "clip.mp4" 0 4 = "clip".
Proof. reflexivity. Qed.

Example strip_run : Js.strip_trailing_slashes "https://a.example/x//" = "https://a.example/x".
Proof. reflexivity. Qed.

Example strip_inner : Js.strip_trailing_slashes "/a/b" = "/a/b".
Proof. reflexivity. Qed.

Example validId_uuid : Server.validId Demo.uuid = true.
Proof. reflexivity. Qed.

Example validId_short : Server.validId "abcdef0123456789abc" = false.
Proof. reflexivity. Qed.

Example validId_non_hex : Server.validId "0123456789abcdefghij" = false.
Proof. reflexivity. Qed.

Example missing_file_is_400 :
  Server.POST_upload Demo.cfg Demo.amb [] ∅ =
    (Answer.error_response 400 "Missing file", Answer.untouched ∅).
Proof. reflexivity. Qed.

Example second_file_is_unexpected :
  fst (Server.POST_upload Demo.cfg Demo.amb
         [Demo.clip "video/mp4" 10; Demo.clip "video/mp4" 10] ∅) =
    Answer.error_response 400 "Unexpected field".
Proof. reflexivity. Qed.

Example failed_put_is_500 :
  Server.POST_upload Demo.cfg Demo.offline [Demo.clip "video/mp4" 10] ∅ =
    (Answer.error_response 500 "connect ECONNREFUSED",
     {| S3.objects := ∅;
        S3.log := [S3.Sent (Answer.sent_for Demo.cfg Demo.offline
                              (Answer.file_of (Demo.clip "video/mp4" 10)))] |}).
Proof. reflexivity. Qed.

Example failed_signing_is_404 :
  fst (Server.GET_raw Demo.cfg Demo.offline Demo.uuid ∅) = Answer.not_found.
Proof. reflexivity. Qed.

Example view_page_embeds_raw_url :
  fst (Server.GET_v Demo.cfg Demo.uuid ∅) =
    {| Http.statusCode := 200;
       Http.headers := [("cache-control", "no-store");
                        ("content-type", "text/html; charset=utf-8")];
       Http.body :=
         Some (Http.Text
                 "<video><source src='/raw/00112233-4455-4677-8899-aabbccddeeff'></video>") |}.
Proof. reflexivity. Qed.

(** ** Strings *)

Section StringFacts.

Lemma append_nil (s : string) : "" +:+ s = s.
Proof. reflexivity. Qed.

Lemma append_cons c (a s : string) : String c a +:+ s = String c (a +:+ s).
Proof. reflexivity. Qed.

Lemma length_app (a b : string) :
  String.length (a +:+ b) = (String.length a + String.length b)%nat.
Proof.
  induction a as [|c a IH]; [reflexivity|].
  rewrite append_cons. simpl. now rewrite IH.
Qed.

Lemma all_chars_app p a b :
  Js.all_chars p (a +:+ b) = Js.all_chars p a && Js.all_chars p b.
Proof.
  induction a as [|c a IH]; [reflexivity|].
  rewrite append_cons. simpl. now rewrite IH, andb_assoc.
Qed.

Lemma all_chars_occurs p s :
  Js.all_chars p s = true <-> forall c, Spec.occurs c s -> p c = true.
Proof.
  unfold Spec.occurs. induction s as [|c s IH]; simpl.
  - split; [intros _ c []|reflexivity].
  - rewrite andb_true_iff, IH. split.
    + intros [Hc Hs] d [<-|Hd]; auto.
    + intros H. split; [apply H; now left|intros d Hd; apply H; now right].
Qed.

Lemma all_chars_false p s :
  Js.all_chars p s = false <-> exists c, Spec.occurs c s /\ p c = false.
Proof.
  unfold Spec.occurs. induction s as [|c s IH]; simpl.
  - split; [discriminate|intros (c & [] & _)].
  - rewrite andb_false_iff, IH. split.
    + intros [Hc|(d & Hd & Hp)]; [exists c|exists d]; auto.
    + intros (d & [<-|Hd] & Hp); [now left|right; eauto].
Qed.

Lemma append_inj_l (a b s : string) : a +:+ s = b +:+ s -> a = b.
Proof.
  intros H.
  assert (Hlen : String.length a = String.length b).
  { apply (f_equal String.length) in H.
    rewrite !length_app in H. lia. }
  revert b H Hlen. induction a as [|c a IH]; intros [|d b] H Hlen;
    simpl in Hlen; try discriminate; [reflexivity|].
  rewrite !append_cons in H. injection H as -> H.
  f_equal. apply IH; [exact H|lia].
Qed.

End StringFacts.

(** ** Slicing and slash stripping *)

Section Slicing.

Lemma substring_truncate s : forall m, String.substring 0 m s = Spec.truncate m s.
Proof.
  induction s as [|c s IH]; intros [|m]; simpl; try reflexivity.
  now rewrite IH.
Qed.

Lemma truncate_min s : forall m,
  Spec.truncate (Nat.min m (String.length s)) s = Spec.truncate m s.
Proof.
  induction s as [|c s IH]; intros [|m]; simpl; try reflexivity.
  now rewrite IH.
Qed.

(** [s.slice(0, n)] keeps the first [n] characters. *)
Lemma slice_prefix s n :
  (0 <= n)%Z -> Js.slice s 0 n = Spec.truncate (Z.to_nat n) s.
Proof.
  intros Hn. unfold Js.slice. change (0 <? 0)%Z with false. cbv iota.
  destruct (Z.ltb_spec n 0) as [Hneg|_]; [lia|].
  replace (Z.to_nat (Z.max (Z.min n (Z.of_nat (String.length s))
                            - Z.min 0 (Z.of_nat (String.length s))) 0))
    with (Nat.min (Z.to_nat n) (String.length s)) by lia.
  replace (Z.to_nat (Z.min 0 (Z.of_nat (String.length s)))) with 0%nat by lia.
  rewrite substring_truncate. apply truncate_min.
Qed.

Lemma strip_decompose s :
  exists n, s = Js.strip_trailing_slashes s +:+ Spec.slashes n.
Proof.
  induction s as [|c s [n IH]]; [now exists 0%nat|].
  cbn [Js.strip_trailing_slashes].
  destruct (Js.strip_trailing_slashes s) as [|d r] eqn:Hs.
  - rewrite append_nil in IH. destruct (Ascii.eqb_spec c "/") as [->|Hc].
    + exists (S n). rewrite append_nil. simpl. now rewrite IH.
    + exists n. rewrite !append_cons, append_nil. now rewrite IH.
  - exists n. rewrite append_cons. now rewrite <- IH.
Qed.

Lemma strip_no_trailing_slash s :
  Spec.last_char (Js.strip_trailing_slashes s) <> Some "/"%char.
Proof.
  induction s as [|c s IH]; [discriminate|].
  cbn [Js.strip_trailing_slashes].
  destruct (Js.strip_trailing_slashes s) as [|d r] eqn:Hs.
  - destruct (Ascii.eqb_spec c "/") as [->|Hc]; simpl; congruence.
  - exact IH.
Qed.

Lemma strip_unchanged s :
  Spec.last_char s <> Some "/"%char -> Js.strip_trailing_slashes s = s.
Proof.
  induction s as [|c s IH]; [reflexivity|].
  intros H. cbn [Js.strip_trailing_slashes].
  destruct s as [|d r].
  - simpl in *. destruct (Ascii.eqb_spec c "/") as [->|Hc]; congruence.
  - rewrite IH by exact H. reflexivity.
Qed.

Lemma last_char_app a c b :
  Spec.last_char (a +:+ String c b) = Spec.last_char (String c b).
Proof.
  induction a as [|d a IH]; [reflexivity|].
  rewrite append_cons. cbn [Spec.last_char]. rewrite IH.
  now destruct a.
Qed.

Lemma last_char_cons_app c a d b :
  Spec.last_char (String c (a +:+ String d b)) = Spec.last_char (String d b).
Proof.
  rewrite <- (last_char_app a d b). cbn [Spec.last_char].
  now destruct a.
Qed.

(** The timestamp carries the UTC designator. *)
Lemma toISOString_utc t : Spec.last_char (Js.toISOString t) = Some "Z"%char.
Proof.
  unfold Js.toISOString. destruct (Js.civil_from_days (Js.Day t)) as [[y m] d].
  rewrite !append_cons, !append_nil.
  rewrite last_char_app. now rewrite !last_char_cons_app.
Qed.

End Slicing.

(** ** Timestamps *)

Section Timestamps.
Local Open Scope Z_scope.

Lemma dec_digit_table n :
  Spec.digit_of (Js.dec_digit n) = Some (n mod 10) /\
  Ascii.eqb (Js.dec_digit n) "+" = false /\
  Ascii.eqb (Js.dec_digit n) "-" = false.
Proof.
  unfold Js.dec_digit. pose proof (Z.mod_pos_bound n 10 eq_refl) as H.
  generalize dependent (n mod 10). intros k Hk.
  assert (Hc : k = 0 \/ k = 1 \/ k = 2 \/ k = 3 \/ k = 4 \/ k = 5 \/ k = 6
               \/ k = 7 \/ k = 8 \/ k = 9) by lia.
  repeat (destruct Hc as [->|Hc]; [repeat split|]). subst k. repeat split.
Qed.

(** The zero-padded field leads with its most significant digit. *)
Lemma pad_head w : forall n,
  Js.pad (S w) n = String (Js.dec_digit (n / 10 ^ Z.of_nat w)) (Js.pad w n).
Proof.
  induction w as [|w IH]; intros n.
  - cbn [Js.pad]. rewrite append_nil. now rewrite Z.div_1_r.
  - change (Js.pad (S (S w)) n)
      with (Js.pad (S w) (n / 10) +:+ String (Js.dec_digit n) "").
    rewrite IH, append_cons. f_equal.
    rewrite Z.div_div by lia. f_equal. f_equal.
    rewrite Nat2Z.inj_succ, Z.pow_succ_r by lia. reflexivity.
Qed.

Lemma digits_pad w : forall n acc rest,
  0 <= n ->
  Spec.digits w acc (Js.pad w n +:+ rest)
  = Some (acc * 10 ^ Z.of_nat w + n mod 10 ^ Z.of_nat w, rest).
Proof.
  induction w as [|w IH]; intros n acc rest Hn.
  - cbn [Js.pad Spec.digits]. rewrite append_nil.
    change (10 ^ Z.of_nat 0) with 1. rewrite Z.mod_1_r. do 2 f_equal. lia.
  - rewrite pad_head, append_cons. cbn [Spec.digits].
    destruct (dec_digit_table (n / 10 ^ Z.of_nat w)) as (-> & _ & _).
    rewrite IH by exact Hn. do 2 f_equal.
    rewrite Nat2Z.inj_succ, Z.pow_succ_r by lia.
    assert (Hp : 0 < 10 ^ Z.of_nat w) by (apply Z.pow_pos_nonneg; lia).
    replace (10 * 10 ^ Z.of_nat w) with (10 ^ Z.of_nat w * 10) by ring.
    rewrite (Z.rem_mul_r n _ 10) by lia. ring.
Qed.

Lemma digits_field (w : nat) n rest :
  0 <= n < 10 ^ Z.of_nat w ->
  Spec.digits w 0 (Js.pad w n +:+ rest) = Some (n, rest).
Proof.
  intros Hn. rewrite digits_pad by lia. now rewrite Z.mod_small by exact Hn.
Qed.

Lemma read_iso_year y rest :
  -999999 <= y <= 999999 ->
  Spec.read_year (Js.iso_year y +:+ rest) = Some (y, rest).
Proof.
  intros Hy. unfold Js.iso_year.
  destruct (Z.leb_spec 0 y) as [H0|H0]; [destruct (Z.leb_spec y 9999) as [H1|H1]|];
    cbn [andb].
  - pose proof (digits_field 4 y rest) as Hd.
    rewrite pad_head, append_cons in Hd |- *. cbn [Spec.read_year].
    destruct (dec_digit_table (y / 10 ^ Z.of_nat 3)) as (_ & -> & ->).
    rewrite Hd by (change (10 ^ Z.of_nat 4) with 10000; lia). reflexivity.
  - destruct (Z.ltb_spec y 0) as [H2|_]; [lia|].
    rewrite append_cons, append_nil, append_cons. cbn [Spec.read_year].
    change (Ascii.eqb "+" "+") with true. cbv iota.
    rewrite digits_field by (change (10 ^ Z.of_nat 6) with 1000000; lia).
    reflexivity.
  - destruct (Z.ltb_spec y 0) as [_|H2]; [|lia].
    rewrite append_cons, append_nil, append_cons. cbn [Spec.read_year].
    change (Ascii.eqb "-" "+") with false. change (Ascii.eqb "-" "-") with true.
    cbv iota.
    rewrite digits_field by (change (10 ^ Z.of_nat 6) with 1000000; lia).
    do 2 f_equal. lia.
Qed.

Lemma leap_year_spec y :
  Spec.leap_year y = true <->
  y mod 4 = 0 /\ (y mod 100 <> 0 \/ y mod 400 = 0).
Proof.
  unfold Spec.leap_year.
  rewrite andb_true_iff, orb_true_iff, negb_true_iff, !Z.eqb_eq, Z.eqb_neq.
  reflexivity.
Qed.

Lemma leap_year_false y :
  Spec.leap_year y = false <->
  y mod 4 <> 0 \/ (y mod 100 = 0 /\ y mod 400 <> 0).
Proof.
  unfold Spec.leap_year.
  rewrite andb_false_iff, orb_false_iff, negb_false_iff, !Z.eqb_eq, !Z.eqb_neq.
  reflexivity.
Qed.

(** The date the algorithm gives is a date of the calendar, and it is the
    date of the day it was given. *)
Lemma civil_from_days_date days :
  let '(y, m, d) := Js.civil_from_days days in
  1 <= m <= 12 /\ 1 <= d <= Spec.days_in_month y m /\
  Spec.day_number y m d = days.
Proof.
  unfold Js.civil_from_days.
  set (z := days + 719468). set (era := z / 146097).
  set (doe := z - era * 146097).
  set (yoe := (doe - doe / 1460 + doe / 36524 - doe / 146096) / 365).
  set (doy := doe - (365 * yoe + yoe / 4 - yoe / 100)).
  set (mp := (5 * doy + 2) / 153).
  set (d := doy - (153 * mp + 2) / 5 + 1).
  set (m := if mp <? 10 then mp + 3 else mp - 9).
  set (y := yoe + era * 400 + (if m <=? 2 then 1 else 0)).
  assert (Hdoe : 0 <= doe < 146097 /\ days = era * 146097 + doe - 719468)
    by (subst doe era z; Z.div_mod_to_equations; lia).
  assert (Hyoe : 0 <= yoe < 400 /\ 0 <= doy <= 365 /\
                 doe = 365 * yoe + yoe / 4 - yoe / 100 + doy /\
                 (doy = 365 -> yoe mod 4 = 3 /\ (yoe mod 100 <> 99 \/ yoe = 399)))
    by (subst doy yoe; clearbody doe; Z.div_mod_to_equations; lia).
  assert (Hmp : 0 <= mp <= 11) by (subst mp; Z.div_mod_to_equations; lia).
  assert (Hd : d = doy - (153 * mp + 2) / 5 + 1) by reflexivity.
  assert (Hmpd : mp = (5 * doy + 2) / 153) by reflexivity.
  assert (Hy : y = yoe + era * 400 + (if m <=? 2 then 1 else 0)) by reflexivity.
  assert (Hm : m = if mp <? 10 then mp + 3 else mp - 9) by reflexivity.
  clearbody y m d mp doy yoe doe era. clear z.
  unfold Spec.day_number, Spec.days_in_month, Spec.days_to_year.
  assert (Hc : mp = 0 \/ mp = 1 \/ mp = 2 \/ mp = 3 \/ mp = 4 \/ mp = 5 \/ mp = 6
               \/ mp = 7 \/ mp = 8 \/ mp = 9 \/ mp = 10 \/ mp = 11) by lia.
  destruct (Spec.leap_year y) eqn:Hl;
    [apply leap_year_spec in Hl|apply leap_year_false in Hl].
  all: destruct Hc as [Hc|[Hc|[Hc|[Hc|[Hc|[Hc|[Hc|[Hc|[Hc|[Hc|[Hc|Hc]]]]]]]]]]];
    rewrite Hc in *; vm_compute in Hm; rewrite Hm in *;
    match goal with |- context [Spec.days_to_month ?K] =>
      calc (Spec.days_to_month K); calc (K =? 2); calc (3 <=? K);
      try calc ((K =? 4) || (K =? 6) || (K =? 9) || (K =? 11))
    end;
    match type of Hy with context [?K <=? 2] => calc_in (K <=? 2) Hy end;
    cbv iota in Hy |- *; cbn [andb].
  all: Z.div_mod_to_equations; lia.
Qed.

Lemma civil_from_days_year days :
  -100000000 <= days <= 100000000 ->
  -999999 <= fst (fst (Js.civil_from_days days)) <= 999999.
Proof.
  intros Hdays. unfold Js.civil_from_days. cbn [fst].
  set (z := days + 719468). set (era := z / 146097).
  set (doe := z - era * 146097).
  set (yoe := (doe - doe / 1460 + doe / 36524 - doe / 146096) / 365).
  assert (Hera : -700 <= era <= 700) by (subst era z; Z.div_mod_to_equations; lia).
  assert (Hdoe : 0 <= doe < 146097) by (subst doe era; Z.div_mod_to_equations; lia).
  assert (Hyoe : 0 <= yoe < 400)
    by (subst yoe; clearbody doe; Z.div_mod_to_equations; lia).
  destruct (_ <=? 2); lia.
Qed.

Lemma days_in_month_bound y m : Spec.days_in_month y m <= 31.
Proof.
  unfold Spec.days_in_month.
  destruct (m =? 2); [destruct (Spec.leap_year y); lia|].
  destruct (_ || _); lia.
Qed.

(** Read back, the timestamp is the instant it was written for. *)
Lemma read_toISOString t :
  Spec.time_value t -> Spec.read_timestamp (Js.toISOString t) = Some t.
Proof.
  unfold Spec.time_value. intros Ht. unfold Js.toISOString.
  pose proof (civil_from_days_date (Js.Day t)) as Hdate.
  pose proof (civil_from_days_year (Js.Day t)) as Hyear.
  destruct (Js.civil_from_days (Js.Day t)) as [[y m] d].
  cbn [fst] in Hyear. destruct Hdate as (Hm & Hd & Hday).
  pose proof (days_in_month_bound y m) as Hdim.
  assert (HDay : -100000000 <= Js.Day t <= 100000000)
    by (unfold Js.Day, Js.msPerDay; Z.div_mod_to_equations; lia).
  specialize (Hyear HDay).
  assert (Hh : 0 <= Js.HourFromTime t < 24) by (apply Z.mod_pos_bound; lia).
  assert (Hmi : 0 <= Js.MinFromTime t < 60) by (apply Z.mod_pos_bound; lia).
  assert (Hs : 0 <= Js.SecFromTime t < 60) by (apply Z.mod_pos_bound; lia).
  assert (Hms : 0 <= Js.msFromTime t < 1000) by (apply Z.mod_pos_bound; lia).
  unfold Spec.read_timestamp.
  rewrite read_iso_year by lia. cbn [mbind option_bind].
  repeat (rewrite append_cons, append_nil; cbn [Spec.expect Ascii.eqb Bool.eqb];
          cbn [mbind option_bind];
          rewrite digits_field by (cbn; lia); cbn [mbind option_bind]).
  cbn [Spec.expect Ascii.eqb Bool.eqb mbind option_bind].
  unfold Spec.utc_instant.
  destruct (Z.leb_spec 1 m); [|lia]. destruct (Z.leb_spec m 12); [|lia].
  destruct (Z.leb_spec 1 d); [|lia].
  destruct (Z.leb_spec d (Spec.days_in_month y m)); [|lia].
  destruct (Z.ltb_spec (Js.HourFromTime t) 24); [|lia].
  destruct (Z.ltb_spec (Js.MinFromTime t) 60); [|lia].
  destruct (Z.ltb_spec (Js.SecFromTime t) 60); [|lia].
  cbn [andb]. f_equal. rewrite Hday.
  unfold Js.Day, Js.msPerDay, Js.HourFromTime, Js.MinFromTime, Js.SecFromTime,
    Js.msFromTime.
  Z.div_mod_to_equations. lia.
Qed.

End Timestamps.

(** ** The identifier format *)

Section IdentifierFormat.

Lemma id_char_table c : Server.id_char c = Spec.hex_digit_b c || Ascii.eqb c "-".
Proof. destruct c as [[] [] [] [] [] [] [] []]; reflexivity. Qed.

Lemma id_char_spec c :
  Server.id_char c = true <-> Spec.is_hex_digit c \/ c = "-"%char.
Proof.
  rewrite id_char_table, orb_true_iff, Ascii.eqb_eq.
  unfold Spec.hex_digit_b, Spec.is_hex_digit, Spec.occurs. rewrite existsb_exists.
  split; (intros [H|H]; [left|now right]).
  - destruct H as (d & Hd & Heq). apply Ascii.eqb_eq in Heq. now subst.
  - exists c. split; [exact H|apply Ascii.eqb_refl].
Qed.

(** The regular expression test is the specification's predicate. *)
Lemma validId_format_ok id : Server.validId id = true <-> Spec.format_ok id.
Proof.
  unfold Server.validId, Spec.format_ok.
  rewrite andb_true_iff, Nat.leb_le, all_chars_occurs.
  split; intros [H1 H2]; split; try assumption; intros c Hc.
  - apply id_char_spec; auto.
  - apply id_char_spec; auto.
Qed.

Lemma validId_format_fails id : Server.validId id = false <-> Spec.format_fails id.
Proof.
  unfold Server.validId, Spec.format_fails.
  rewrite andb_false_iff, Nat.leb_gt, all_chars_false.
  split; (intros [H|H]; [right|left]); try assumption.
  - destruct H as (c & Hc & Hp). exists c. split; [exact Hc|].
    rewrite <- id_char_spec, Hp. discriminate.
  - destruct H as (c & Hc & Hp). exists c. split; [exact Hc|].
    rewrite <- id_char_spec in Hp. now destruct (Server.id_char c).
Qed.

End IdentifierFormat.

(** ** The identifier generator *)

Section Identifier.

Lemma kHexBytes_chars b : Js.all_chars Server.id_char (Js.kHexBytes b) = true.
Proof. destruct b; reflexivity. Qed.

Lemma kHexBytes_length b : String.length (Js.kHexBytes b) = 2%nat.
Proof. reflexivity. Qed.

Lemma token_bits_kHexBytes b s :
  Spec.token_bits (Js.kHexBytes b +:+ s) = Spec.byte_bits b ++ Spec.token_bits s.
Proof. destruct b; reflexivity. Qed.

Lemma token_bits_hyphen s : Spec.token_bits ("-" +:+ s) = Spec.token_bits s.
Proof. reflexivity. Qed.

Lemma append_empty_r (s : string) : s +:+ "" = s.
Proof.
  induction s as [|c s IH]; [reflexivity|]. now rewrite append_cons, IH.
Qed.

Lemma byte_bits_version b :
  Spec.byte_bits (Js.stamp_version b) =
    [false; true; false; false] ++ drop 4 (Spec.byte_bits b).
Proof. destruct b; reflexivity. Qed.

Lemma byte_bits_variant b :
  Spec.byte_bits (Js.stamp_variant b) = [true; false] ++ drop 2 (Spec.byte_bits b).
Proof. destruct b; reflexivity. Qed.

Variable random : nat -> byte.

Lemma randomUUID_length : String.length (Js.randomUUID random) = 36%nat.
Proof. reflexivity. Qed.

(** Whatever the CSPRNG returns, the identifier passes [validId]. *)
Lemma randomUUID_valid : Server.validId (Js.randomUUID random) = true.
Proof.
  unfold Server.validId. rewrite randomUUID_length.
  unfold Js.randomUUID. rewrite !all_chars_app, !kHexBytes_chars. reflexivity.
Qed.

Lemma randomUUID_bits :
  Spec.token_bits (Js.randomUUID random) = Spec.v4_stamp (Spec.entropy_bits random).
Proof.
  unfold Js.randomUUID.
  rewrite <- (append_empty_r (Js.kHexBytes (Js.uuid_byte random 15))).
  repeat (rewrite token_bits_kHexBytes || rewrite token_bits_hyphen).
  cbn [Js.uuid_byte]. rewrite byte_bits_version, byte_bits_variant.
  reflexivity.
Qed.

Lemma hex_digit_lower n : Spec.is_lower_hex (Js.hex_digit n) = true.
Proof.
  unfold Js.hex_digit.
  repeat match goal with
         | |- context [match ?x with _ => _ end] => destruct x
         end; reflexivity.
Qed.

Lemma randomUUID_layout : Spec.layout_from 0 (Js.randomUUID random) = true.
Proof.
  unfold Js.randomUUID, Js.kHexBytes. rewrite !append_cons, !append_nil.
  cbn [Spec.layout_from Spec.hyphen_positions existsb Nat.eqb orb].
  rewrite !hex_digit_lower. reflexivity.
Qed.

Lemma layout_from_get s : forall k i c,
  Spec.layout_from k s = true ->
  String.get i s = Some c ->
  In (k + i)%nat Spec.hyphen_positions /\ c = "-"%char \/
  ~ In (k + i)%nat Spec.hyphen_positions /\ Spec.occurs c Spec.lower_hex_digits.
Proof.
  induction s as [|d r IH]; intros k i c Hlay Hget; [discriminate|].
  cbn [Spec.layout_from] in Hlay. apply andb_true_iff in Hlay as [Hd Hr].
  destruct i as [|i]; cbn [String.get] in Hget.
  - injection Hget as <-. rewrite Nat.add_0_r.
    destruct (existsb (Nat.eqb k) Spec.hyphen_positions) eqn:Hk.
    + left. split; [|now apply Ascii.eqb_eq].
      apply existsb_exists in Hk as (j & Hj & Hkj).
      apply Nat.eqb_eq in Hkj. now subst.
    + right. split.
      * intros Hin. assert (existsb (Nat.eqb k) Spec.hyphen_positions = true); [|congruence].
        apply existsb_exists. exists k. split; [exact Hin|apply Nat.eqb_refl].
      * unfold Spec.is_lower_hex in Hd.
        apply existsb_exists in Hd as (e & He & Hde).
        apply Ascii.eqb_eq in Hde. subst. exact He.
  - replace (k + S i)%nat with (S k + i)%nat by lia. now apply IH.
Qed.

Lemma randomUUID_hyphens :
  Forall (fun i => String.get i (Js.randomUUID random) = Some "-"%char)
    Spec.hyphen_positions.
Proof. repeat constructor. Qed.

Lemma randomUUID_version_char : String.get 14 (Js.randomUUID random) = Some "4"%char.
Proof.
  unfold Js.randomUUID, Js.kHexBytes. rewrite !append_cons, !append_nil.
  cbn [String.get Js.uuid_byte]. f_equal. now destruct (random 6%nat).
Qed.

Lemma randomUUID_variant_char :
  exists c, String.get 19 (Js.randomUUID random) = Some c /\ Spec.occurs c "89ab".
Proof.
  unfold Js.randomUUID, Js.kHexBytes. rewrite !append_cons, !append_nil.
  cbn [String.get Js.uuid_byte]. eexists. split; [reflexivity|].
  unfold Spec.occurs. destruct (random 8%nat); vm_compute; tauto.
Qed.

End Identifier.

Lemma randomUUID_free_bits random i :
  ~ In i Spec.v4_fixed ->
  Spec.token_bits (Js.randomUUID random) !! i = Spec.entropy_bits random !! i.
Proof.
  intros Hi. rewrite randomUUID_bits. unfold Spec.v4_stamp.
  rewrite !list_lookup_insert_ne; [reflexivity|..];
    intros <-; apply Hi; simpl; tauto.
Qed.

(** ** The multipart middleware under the server's options *)

Section MulterFacts.

Variable field : string.

Lemma fileFilter_mp4 p :
  Multer.mimetype p = "video/mp4" ->
  Multer.fileFilter Server.upload p = Normal true.
Proof. intros H. simpl. now rewrite H. Qed.

Lemma fileFilter_other p :
  Multer.mimetype p <> "video/mp4" ->
  Multer.fileFilter Server.upload p = Throw (Js.Error "Only video/mp4 allowed").
Proof.
  intros H. apply String.eqb_neq in H. simpl. now rewrite H.
Qed.

(** A named part of the wrong type, or too large, ends the request with
    an error wherever it stands among the parts. *)
Lemma files_rejects parts : forall filesLeft file p,
  In p parts ->
  Multer.filename p <> "" ->
  Multer.mimetype p <> "video/mp4" \/
    250 * 1024 * 1024 < S3.byteLength (Multer.data p) ->
  exists e, Multer.files Server.upload field filesLeft parts file = Multer.NextErr e.
Proof.
  induction parts as [|q rest IH]; intros filesLeft file p Hin Hname Hbad; [destruct Hin|].
  cbn [Multer.files].
  destruct (String.eqb_spec (Multer.filename q) "") as [Hq|Hq].
  { destruct Hin as [->|Hin]; [contradiction|]. eapply IH; eauto. }
  destruct (if String.eqb (Multer.fieldname q) field then filesLeft else O)
    as [|remaining]; [eauto|].
  destruct (String.eqb_spec (Multer.mimetype q) "video/mp4") as [Hm|Hm].
  2:{ rewrite (fileFilter_other q Hm). eauto. }
  rewrite (fileFilter_mp4 q Hm).
  change (Multer.fileSize Server.upload) with (250 * 1024 * 1024).
  destruct (N.ltb_spec (250 * 1024 * 1024) (S3.byteLength (Multer.data q))) as [Hs|Hs];
    [eauto|].
  destruct Hin as [->|Hin]; [|eapply IH; eauto].
  destruct Hbad as [Hbad|Hbad]; [contradiction|lia].
Qed.

(** A file that reaches the handler came from a part that passed every
    check. *)
Lemma files_handed_over parts : forall filesLeft file f,
  Multer.files Server.upload field filesLeft parts file = Multer.Next (Some f) ->
  file = Some f \/ exists p, In p parts /\ Answer.accepted field p f.
Proof.
  induction parts as [|q rest IH]; intros filesLeft file f; cbn [Multer.files].
  { intros [= ->]. now left. }
  destruct (String.eqb_spec (Multer.filename q) "") as [Hq|Hq].
  { intros H. destruct (IH _ _ _ H) as [->|(p & Hp & Hacc)];
      [now left|right; exists p; split; [now right|exact Hacc]]. }
  destruct (String.eqb_spec (Multer.fieldname q) field) as [Hf|Hf]; [|discriminate].
  destruct filesLeft as [|remaining]; [discriminate|].
  destruct (String.eqb_spec (Multer.mimetype q) "video/mp4") as [Hm|Hm].
  2:{ rewrite (fileFilter_other q Hm). discriminate. }
  rewrite (fileFilter_mp4 q Hm).
  change (Multer.fileSize Server.upload) with (250 * 1024 * 1024).
  destruct (N.ltb_spec (250 * 1024 * 1024) (S3.byteLength (Multer.data q))) as [Hs|Hs];
    [discriminate|].
  intros H. right. destruct (IH _ _ _ H) as [[= <-]|(p & Hp & Hacc)].
  - exists q. split; [now left|]. repeat split; assumption.
  - exists p. split; [now right|exact Hacc].
Qed.

End MulterFacts.

Lemma single_accepts p :
  Multer.filename p <> "" ->
  Multer.fieldname p = "file" ->
  Multer.mimetype p = "video/mp4" ->
  S3.byteLength (Multer.data p) <= 250 * 1024 * 1024 ->
  Multer.single Server.upload "file" [p] = Multer.Next (Some (Answer.file_of p)).
Proof.
  intros Hname Hfield Hmime Hsize. first_named_part Hname Hfield.
  rewrite (fileFilter_mp4 p Hmime).
  change (Multer.fileSize Server.upload) with (250 * 1024 * 1024).
  apply N.ltb_ge in Hsize. now rewrite Hsize.
Qed.

Lemma single_nameless p :
  Multer.filename p = "" ->
  Multer.single Server.upload "file" [p] = Multer.Next None.
Proof.
  intros H. unfold Multer.single. cbn [Multer.files]. now rewrite H.
Qed.

(** ** The raw-playback and viewer routes *)

Section Playback.

Variable cfg : Server.Config.
Variable amb : Ambient.
Variable objs : gmap (string * string) S3.Object.

Lemma GET_v_malformed id :
  Server.validId id = false ->
  Server.GET_v cfg id objs = (Answer.bad_id, Answer.untouched objs).
Proof.
  intros H. unfold Server.GET_v, Server.serve, Server.view_handler.
  now rewrite H.
Qed.

Lemma GET_raw_malformed id :
  Server.validId id = false ->
  Server.GET_raw cfg amb id objs = (Answer.bad_id, Answer.untouched objs).
Proof.
  intros H.
  unfold Server.GET_raw, Server.serve, Server.raw_handler, try_catch.
  now rewrite H.
Qed.

(** On a well-formed identifier the handler signs once and answers by what
    the presigner returned. *)
Lemma GET_raw_wellformed id :
  Server.validId id = true ->
  Server.GET_raw cfg amb id objs =
    (match presigner amb {| S3.Bucket := Server.S3_BUCKET cfg; S3.Key := id +:+ ".mp4" |} 600 with
     | Normal url => Answer.found url
     | Throw _ => Answer.not_found
     end,
     {| S3.objects := objs;
        S3.log := [S3.Presigned {| S3.Bucket := Server.S3_BUCKET cfg;
                                   S3.Key := id +:+ ".mp4" |} 600] |}).
Proof.
  intros H.
  unfold Server.GET_raw, Server.serve, Server.raw_handler, try_catch.
  rewrite H. cbn -[String.append].
  unfold mbind, M_bind, getSignedUrl. cbn -[String.append].
  change (60 * 10)%Z with 600%Z.
  now destruct (presigner amb _ 600%Z).
Qed.

End Playback.

(** ** The upload route *)

Section Upload.

Variable cfg : Server.Config.
Variable amb : Ambient.
Variable objs : gmap (string * string) S3.Object.

(** Every way the route can end. *)
Lemma POST_upload_outcomes parts :
  Server.POST_upload cfg amb parts objs =
    match Multer.single Server.upload "file" parts with
    | Multer.NextErr err =>
        (Answer.error_response 400 (Js.message_or err "Bad request"), Answer.untouched objs)
    | Multer.Next None =>
        (Answer.error_response 400 "Missing file", Answer.untouched objs)
    | Multer.Next (Some f) =>
        match put_fault amb (Answer.sent_for cfg amb f) with
        | None =>
            (Answer.upload_response cfg amb,
             {| S3.objects :=
                  <[(Server.S3_BUCKET cfg, Js.randomUUID (random amb) +:+ ".mp4")
                    := S3.stored (Answer.sent_for cfg amb f)]> objs;
                S3.log := [S3.Sent (Answer.sent_for cfg amb f)] |})
        | Some e =>
            (Answer.error_response 500 (Js.message_or e (Js.to_string e)),
             {| S3.objects := objs; S3.log := [S3.Sent (Answer.sent_for cfg amb f)] |})
        end
    end.
Proof.
  unfold Server.POST_upload.
  destruct (Multer.single Server.upload "file" parts) as [[f|]|err];
    [|reflexivity|reflexivity].
  unfold Server.serve, Server.upload_handler, try_catch, mbind, M_bind, s3_send.
  cbn -[String.append Js.randomUUID Js.toISOString Js.slice Js.strip_trailing_slashes].
  fold (Answer.sent_for cfg amb f).
  now destruct (put_fault amb (Answer.sent_for cfg amb f)).
Qed.

(** A file of the wrong type, or too large, ends the request at 400 before
    the handler runs. [p] is a file of the request when it is a named part,
    or the only part there is. *)
Lemma POST_upload_rejected parts p :
  In p parts ->
  Multer.filename p <> "" \/ parts = [p] ->
  Multer.mimetype p <> "video/mp4" \/
    250 * 1024 * 1024 < S3.byteLength (Multer.data p) ->
  exists msg,
    Server.POST_upload cfg amb parts objs =
      (Answer.error_response 400 msg, Answer.untouched objs).
Proof.
  intros Hin Hfile Hbad. rewrite POST_upload_outcomes.
  destruct (String.eqb_spec (Multer.filename p) "") as [Hnameless|Hname].
  - destruct Hfile as [Hname| ->]; [contradiction|].
    rewrite (single_nameless p Hnameless). eauto.
  - unfold Multer.single.
    destruct (files_rejects "file" parts 1%nat None p Hin Hname Hbad) as [e ->].
    eauto.
Qed.

End Upload.

(** * The properties the specification states

    Each is labelled with its number in the list of properties. *)

(** ** Identifiers *)

(** C2 as stated fails. When the CSPRNG returns sixteen zero bytes the token
    is not all zeros, and for every CSPRNG output bit 49 of the token (the
    middle of the version nibble) is set: that bit is fixed by the format,
    not drawn from the randomness source. *)
Lemma version_bit_is_fixed_by_format :
  ~ Spec.all_bits_random (fun _ => x00) /\
  Js.randomUUID (fun _ => x00) = "00000000-0000-4000-8000-000000000000" /\
  forall random, Spec.token_bits (Js.randomUUID random) !! 49%nat = Some true.
Proof.
  split; [|split].
  - unfold Spec.all_bits_random. vm_compute. discriminate.
  - reflexivity.
  - intros random. rewrite randomUUID_bits. reflexivity.
Qed.

(** C2, amended. Every call of the identifier generator produces an RFC 4122
    version 4 UUID: a 36-character string of hex digits with hyphens at
    positions 8, 13, 18 and 23 that passes the format predicate, whose 128
    bits are those of the sixteen CSPRNG bytes except for six that the
    format fixes (the version nibble 0100 at bits 48..51 and the variant
    bits 10 at bits 64..65); the other 122 bits are the random ones. Every
    character that is not one of the four hyphens is a lowercase hex digit;
    the one at position 14 is "4" and the one at position 19 is one of
    "8", "9", "a", "b". *)
Theorem randomUUID_is_version_4 (random : nat -> byte) :
  String.length (Js.randomUUID random) = 36%nat /\
  Forall (fun i => String.get i (Js.randomUUID random) = Some "-"%char)
    Spec.hyphen_positions /\
  Server.validId (Js.randomUUID random) = true /\
  length (Spec.entropy_bits random) = 128%nat /\
  Spec.token_bits (Js.randomUUID random) = Spec.v4_stamp (Spec.entropy_bits random) /\
  (forall i, ~ In i Spec.v4_fixed ->
     Spec.token_bits (Js.randomUUID random) !! i = Spec.entropy_bits random !! i) /\
  map (fun i => Spec.token_bits (Js.randomUUID random) !! i) Spec.v4_fixed =
    [Some false; Some true; Some false; Some false; Some true; Some false] /\
  (forall i c,
     String.get i (Js.randomUUID random) = Some c ->
     In i Spec.hyphen_positions /\ c = "-"%char \/
     ~ In i Spec.hyphen_positions /\ Spec.occurs c Spec.lower_hex_digits) /\
  String.get 14 (Js.randomUUID random) = Some "4"%char /\
  (exists c, String.get 19 (Js.randomUUID random) = Some c /\ Spec.occurs c "89ab").
Proof.
  split; [apply randomUUID_length|]. split; [apply randomUUID_hyphens|].
  split; [apply randomUUID_valid|]. split; [reflexivity|].
  split; [apply randomUUID_bits|].
  split; [apply randomUUID_free_bits|].
  split; [rewrite randomUUID_bits; reflexivity|].
  split; [intros i c; apply (layout_from_get _ 0%nat i c), randomUUID_layout|].
  split; [apply randomUUID_version_char|apply randomUUID_variant_char].
Qed.

(** C4. A path identifier that fails the Identifier Format Predicate (fewer
    than twenty characters, or some character that is neither a hex digit
    nor a hyphen) gets 400 "Bad id" from both GET /v/{id} and GET /raw/{id},
    and neither route performs an operation on the object store. *)
Theorem malformed_id_is_rejected_without_store_access
    (cfg : Server.Config) (amb : Ambient)
    (objs : gmap (string * string) S3.Object) (id : string) :
  Spec.format_fails id ->
  Server.GET_v cfg id objs = (Answer.bad_id, Answer.untouched objs) /\
  Server.GET_raw cfg amb id objs = (Answer.bad_id, Answer.untouched objs).
Proof.
  intros H. apply validId_format_fails in H.
  split; [now apply GET_v_malformed|now apply GET_raw_malformed].
Qed.

Lemma malformed_id_is_rejected_witness :
  Spec.format_fails "ab" /\
  Server.GET_v Demo.cfg "ab" ∅ = (Answer.bad_id, Answer.untouched ∅) /\
  Server.GET_raw Demo.cfg Demo.amb "ab" ∅ = (Answer.bad_id, Answer.untouched ∅).
Proof.
  assert (H : Spec.format_fails "ab") by (left; simpl; lia).
  split; [exact H|].
  exact (malformed_id_is_rejected_without_store_access Demo.cfg Demo.amb ∅ "ab" H).
Defined.

(** C10. The format predicate asks for no hex digit: every string of twenty
    or more characters that are all hyphens is a valid identifier, and
    GET /raw/{id} for it goes on to request a signed URL for [id + ".mp4"]
    (for twenty hyphens, the key "--------------------.mp4") instead of
    answering 400. *)
Theorem all_hyphen_id_is_accepted_and_signed
    (cfg : Server.Config) (amb : Ambient)
    (objs : gmap (string * string) S3.Object) (id : string) :
  (20 <= String.length id)%nat ->
  (forall c, Spec.occurs c id -> c = "-"%char) ->
  Server.validId id = true /\
  S3.log (snd (Server.GET_raw cfg amb id objs)) =
    [S3.Presigned {| S3.Bucket := Server.S3_BUCKET cfg; S3.Key := id +:+ ".mp4" |} 600] /\
  Http.statusCode (fst (Server.GET_raw cfg amb id objs)) <> 400.
Proof.
  intros Hlen Hall.
  assert (H : Server.validId id = true).
  { apply validId_format_ok. split; [exact Hlen|]. intros c Hc. right. now apply Hall. }
  split; [exact H|]. rewrite (GET_raw_wellformed cfg amb objs id H).
  split; [reflexivity|]. simpl. now destruct (presigner amb _ 600%Z).
Qed.

Lemma all_hyphen_id_witness :
  Server.validId "--------------------" = true /\
  S3.log (snd (Server.GET_raw Demo.cfg Demo.amb "--------------------" ∅)) =
    [S3.Presigned {| S3.Bucket := "videos"; S3.Key := "--------------------.mp4" |} 600] /\
  Http.statusCode (fst (Server.GET_raw Demo.cfg Demo.amb "--------------------" ∅)) <> 400.
Proof.
  apply (all_hyphen_id_is_accepted_and_signed Demo.cfg Demo.amb ∅ "--------------------").
  - simpl. lia.
  - intros c Hc. unfold Spec.occurs in Hc. simpl in Hc.
    repeat (destruct Hc as [<-|Hc]; [reflexivity|]). destruct Hc.
Defined.

(** ** Raw playback *)

(** C7. For every valid identifier the raw playback handler asks for the
    signed URL of the key [id + ".mp4"] exactly once, with a time-to-live of
    exactly 600 seconds, and answers with a 302 redirect to the URL the
    signer returned. *)
Theorem raw_signs_for_600_seconds_and_redirects
    (cfg : Server.Config) (amb : Ambient)
    (objs : gmap (string * string) S3.Object) (id : string) :
  Server.validId id = true ->
  S3.log (snd (Server.GET_raw cfg amb id objs)) =
    [S3.Presigned {| S3.Bucket := Server.S3_BUCKET cfg; S3.Key := id +:+ ".mp4" |} 600] /\
  forall url,
    presigner amb {| S3.Bucket := Server.S3_BUCKET cfg; S3.Key := id +:+ ".mp4" |} 600
      = Normal url ->
    fst (Server.GET_raw cfg amb id objs) = Answer.found url.
Proof.
  intros H. rewrite (GET_raw_wellformed cfg amb objs id H). split; [reflexivity|].
  intros url ->. reflexivity.
Qed.

Lemma raw_signs_for_600_seconds_witness :
  Server.validId Demo.uuid = true /\
  S3.log (snd (Server.GET_raw Demo.cfg Demo.amb Demo.uuid ∅)) =
    [S3.Presigned {| S3.Bucket := "videos";
                     S3.Key := "00112233-4455-4677-8899-aabbccddeeff.mp4" |} 600] /\
  fst (Server.GET_raw Demo.cfg Demo.amb Demo.uuid ∅) =
    Answer.found "https://s3.example/videos/00112233-4455-4677-8899-aabbccddeeff.mp4?X-Amz-Expires=600".
Proof.
  assert (H : Server.validId Demo.uuid = true) by reflexivity.
  split; [exact H|].
  destruct (raw_signs_for_600_seconds_and_redirects Demo.cfg Demo.amb ∅ Demo.uuid H)
    as [Hlog Hres].
  split; [exact Hlog|].
  apply Hres. reflexivity.
Defined.

(** C1 as stated fails. The identifier below is well formed and the bucket is
    empty, so it was never uploaded; the signer signs the key all the same
    and GET /raw/{id} answers 302 with the signed URL, not 404. *)
Lemma never_uploaded_id_is_redirected :
  Server.validId Demo.uuid = true /\
  Spec.never_uploaded Demo.cfg ∅ Demo.uuid /\
  fst (Server.GET_raw Demo.cfg Demo.amb Demo.uuid ∅) =
    Answer.found "https://s3.example/videos/00112233-4455-4677-8899-aabbccddeeff.mp4?X-Amz-Expires=600" /\
  Http.statusCode (fst (Server.GET_raw Demo.cfg Demo.amb Demo.uuid ∅)) <> 404.
Proof.
  split; [reflexivity|]. split; [apply lookup_empty|].
  split; [reflexivity|]. vm_compute. discriminate.
Qed.

(** C1, amended. For every valid identifier, uploaded or not, GET /raw/{id}
    answers 404 "Not found" (a fixed response, never the backend's error)
    exactly when signing fails, and redirects to the signed URL when signing
    succeeds; the answer does not depend on what the store holds. *)
Theorem raw_is_not_found_exactly_when_signing_fails
    (cfg : Server.Config) (amb : Ambient)
    (objs : gmap (string * string) S3.Object) (id : string) :
  Server.validId id = true ->
  (fst (Server.GET_raw cfg amb id objs) = Answer.not_found <->
   exists e, presigner amb {| S3.Bucket := Server.S3_BUCKET cfg; S3.Key := id +:+ ".mp4" |} 600
             = Throw e) /\
  (forall url,
     presigner amb {| S3.Bucket := Server.S3_BUCKET cfg; S3.Key := id +:+ ".mp4" |} 600
       = Normal url ->
     fst (Server.GET_raw cfg amb id objs) = Answer.found url) /\
  (forall objs', fst (Server.GET_raw cfg amb id objs') = fst (Server.GET_raw cfg amb id objs)).
Proof.
  intros H. split; [|split].
  - rewrite (GET_raw_wellformed cfg amb objs id H). cbn [fst].
    destruct (presigner amb _ 600%Z) as [url|e].
    + split; [discriminate|intros [e [=]]].
    + split; [eauto|reflexivity].
  - intros url Hurl. rewrite (GET_raw_wellformed cfg amb objs id H), Hurl. reflexivity.
  - intros objs'. now rewrite !(GET_raw_wellformed cfg amb _ id H).
Qed.

Lemma raw_is_not_found_witness :
  Server.validId Demo.uuid = true /\
  fst (Server.GET_raw Demo.cfg Demo.offline Demo.uuid ∅) = Answer.not_found /\
  fst (Server.GET_raw Demo.cfg Demo.amb Demo.uuid ∅) <> Answer.not_found.
Proof.
  assert (H : Server.validId Demo.uuid = true) by reflexivity.
  split; [exact H|]. split.
  - destruct (raw_is_not_found_exactly_when_signing_fails
                Demo.cfg Demo.offline ∅ Demo.uuid H) as [Hiff _].
    apply Hiff. exists Demo.unreachable. reflexivity.
  - destruct (raw_is_not_found_exactly_when_signing_fails
                Demo.cfg Demo.amb ∅ Demo.uuid H) as [Hiff _].
    intros Hnf. apply Hiff in Hnf. destruct Hnf as [e He]. discriminate He.
Defined.

(** ** Uploads *)

(** C3 as stated fails. With the base URL "https://example.com/" a valid
    upload that the store accepts is answered with the page URL
    "https://example.com/v/{id}": the slash the base URL ends in is dropped,
    so the URL is not the base URL followed by "/v/{id}". *)
Lemma upload_url_drops_trailing_slash :
  Multer.single Server.upload "file" [Demo.clip "video/mp4" 10] =
    Multer.Next (Some (Answer.file_of (Demo.clip "video/mp4" 10))) /\
  put_fault Demo.amb
    (Answer.sent_for Demo.cfg Demo.amb (Answer.file_of (Demo.clip "video/mp4" 10))) = None /\
  fst (Server.POST_upload Demo.cfg Demo.amb [Demo.clip "video/mp4" 10] ∅) =
    {| Http.statusCode := 200; Http.headers := [];
       Http.body :=
         Some (Http.Json
                 [("id", "00112233-4455-4677-8899-aabbccddeeff");
                  ("url", "https://example.com/v/00112233-4455-4677-8899-aabbccddeeff")]) |} /\
  "https://example.com/v/00112233-4455-4677-8899-aabbccddeeff" <>
    Server.PUBLIC_BASE_URL Demo.cfg +:+ "/v/" +:+ "00112233-4455-4677-8899-aabbccddeeff".
Proof.
  split; [reflexivity|]. split; [reflexivity|]. split; [reflexivity|].
  vm_compute. discriminate.
Qed.

(** C3, amended. A valid MP4 upload of at most 250 MiB that the store
    accepts is answered 200 with an id matching the Identifier Format
    Predicate and a url equal to the public base URL with its trailing
    slashes removed, followed by "/v/{id}"; that is {PUBLIC_BASE_URL}/v/{id}
    whenever the base URL does not end in a slash. *)
Theorem valid_upload_returns_id_and_page_url
    (cfg : Server.Config) (amb : Ambient)
    (objs : gmap (string * string) S3.Object) (p : Multer.FilePart) :
  Multer.filename p <> "" ->
  Multer.fieldname p = "file" ->
  Multer.mimetype p = "video/mp4" ->
  S3.byteLength (Multer.data p) <= 250 * 1024 * 1024 ->
  put_fault amb (Answer.sent_for cfg amb (Answer.file_of p)) = None ->
  exists id url,
    fst (Server.POST_upload cfg amb [p] objs) =
      {| Http.statusCode := 200; Http.headers := [];
         Http.body := Some (Http.Json [("id", id); ("url", url)]) |} /\
    Spec.format_ok id /\
    url = Js.strip_trailing_slashes (Server.PUBLIC_BASE_URL cfg) +:+ "/v/" +:+ id /\
    (exists n, Server.PUBLIC_BASE_URL cfg =
                 Js.strip_trailing_slashes (Server.PUBLIC_BASE_URL cfg) +:+ Spec.slashes n) /\
    Spec.last_char (Js.strip_trailing_slashes (Server.PUBLIC_BASE_URL cfg)) <> Some "/"%char /\
    (Spec.last_char (Server.PUBLIC_BASE_URL cfg) <> Some "/"%char ->
     url = Server.PUBLIC_BASE_URL cfg +:+ "/v/" +:+ id).
Proof.
  intros Hname Hfield Hmime Hsize Hput.
  exists (Js.randomUUID (random amb)).
  exists (Js.strip_trailing_slashes (Server.PUBLIC_BASE_URL cfg)
          +:+ "/v/" +:+ Js.randomUUID (random amb)).
  rewrite POST_upload_outcomes, (single_accepts p Hname Hfield Hmime Hsize), Hput.
  split; [reflexivity|].
  split; [apply validId_format_ok, randomUUID_valid|]. split; [reflexivity|].
  split; [apply strip_decompose|]. split; [apply strip_no_trailing_slash|].
  intros Hlast. now rewrite (strip_unchanged _ Hlast).
Qed.

Lemma valid_upload_witness :
  exists id url,
    fst (Server.POST_upload Demo.cfg Demo.amb [Demo.clip "video/mp4" 10] ∅) =
      {| Http.statusCode := 200; Http.headers := [];
         Http.body := Some (Http.Json [("id", id); ("url", url)]) |} /\
    Spec.format_ok id /\
    url = Js.strip_trailing_slashes (Server.PUBLIC_BASE_URL Demo.cfg) +:+ "/v/" +:+ id /\
    (exists n, Server.PUBLIC_BASE_URL Demo.cfg =
                 Js.strip_trailing_slashes (Server.PUBLIC_BASE_URL Demo.cfg)
                 +:+ Spec.slashes n) /\
    Spec.last_char (Js.strip_trailing_slashes (Server.PUBLIC_BASE_URL Demo.cfg))
      <> Some "/"%char /\
    (Spec.last_char (Server.PUBLIC_BASE_URL Demo.cfg) <> Some "/"%char ->
     url = Server.PUBLIC_BASE_URL Demo.cfg +:+ "/v/" +:+ id).
Proof.
  apply (valid_upload_returns_id_and_page_url Demo.cfg Demo.amb ∅
           (Demo.clip "video/mp4" 10)).
  - discriminate.
  - reflexivity.
  - reflexivity.
  - vm_compute. discriminate.
  - reflexivity.
Defined.




(** C6. An upload of a file larger than the ceiling of 250 MiB is answered
    with the client error 400 and nothing is written to the object store;
    when the size is all that is wrong with it, the error reported is the
    middleware's "File too large". The file is any named part of the
    request, or its only part. *)
Theorem oversized_upload_is_rejected_unwritten
    (cfg : Server.Config) (amb : Ambient)
    (objs : gmap (string * string) S3.Object)
    (parts : list Multer.FilePart) (p : Multer.FilePart) :
  In p parts ->
  Multer.filename p <> "" \/ parts = [p] ->
  250 * 1024 * 1024 < S3.byteLength (Multer.data p) ->
  Http.statusCode (fst (Server.POST_upload cfg amb parts objs)) = 400 /\
  Http.is_client_error (fst (Server.POST_upload cfg amb parts objs)) = true /\
  snd (Server.POST_upload cfg amb parts objs) = Answer.untouched objs /\
  (parts = [p] -> Multer.filename p <> "" -> Multer.fieldname p = "file" ->
   Multer.mimetype p = "video/mp4" ->
   fst (Server.POST_upload cfg amb parts objs) = Answer.error_response 400 "File too large").
Proof.
  intros Hin Hfile Hsize.
  destruct (POST_upload_rejected cfg amb objs parts p Hin Hfile (or_intror Hsize))
    as [msg Hmsg].
  split; [|split; [|split]]; try (rewrite Hmsg; reflexivity).
  intros -> Hname Hfield Hmime. rewrite POST_upload_outcomes.
  first_named_part Hname Hfield.
  rewrite (fileFilter_mp4 p Hmime).
  change (Multer.fileSize Server.upload) with (250 * 1024 * 1024).
  apply N.ltb_lt in Hsize. now rewrite Hsize.
Qed.

Lemma oversized_upload_witness :
  250 * 1024 * 1024 < 262144001 /\
  fst (Server.POST_upload Demo.cfg Demo.amb [Demo.clip "video/mp4" 262144001] ∅) =
    Answer.error_response 400 "File too large" /\
  snd (Server.POST_upload Demo.cfg Demo.amb [Demo.clip "video/mp4" 262144001] ∅) =
    Answer.untouched ∅.
Proof.
  assert (Hsize : 250 * 1024 * 1024 < 262144001) by reflexivity.
  split; [exact Hsize|].
  destruct (oversized_upload_is_rejected_unwritten Demo.cfg Demo.amb ∅
              [Demo.clip "video/mp4" 262144001] (Demo.clip "video/mp4" 262144001))
    as (_ & _ & Hstore & Hmsg).
  - left. reflexivity.
  - left. discriminate.
  - exact Hsize.
  - split; [|exact Hstore]. apply Hmsg; [reflexivity|discriminate|reflexivity|reflexivity].
Defined.

(** C9. Every successful upload sent exactly one put to the store, for a
    named video/mp4 file of the request: the body is the uploaded file's
    bytes, the content type is video/mp4, the
    cache-control header is the immutable one-year "public,
    max-age=31536000, immutable", and the metadata is [originalname], the
    uploaded filename cut to its first 200 characters, and [uploadedat], the
    ISO 8601 UTC rendering of the clock at the time of the request; the
    object then stands in the bucket under the put's key. The [uploadedat]
    entry is a UTC timestamp of that instant: it ends in the UTC designator
    Z, and read as YYYY-MM-DDTHH:mm:ss.sssZ in the proleptic Gregorian
    calendar it names the very millisecond the clock showed, for every time
    value a Date can hold. *)
Theorem successful_upload_puts_mp4_with_metadata
    (cfg : Server.Config) (amb : Ambient)
    (objs : gmap (string * string) S3.Object) (parts : list Multer.FilePart) :
  Http.statusCode (fst (Server.POST_upload cfg amb parts objs)) = 200 ->
  exists p cmd,
    In p parts /\
    Multer.filename p <> "" /\
    Multer.mimetype p = "video/mp4" /\
    S3.log (snd (Server.POST_upload cfg amb parts objs)) = [S3.Sent cmd] /\
    S3.put_Body cmd = Multer.data p /\
    S3.ContentType cmd = "video/mp4" /\
    S3.CacheControl cmd = "public, max-age=31536000, immutable" /\
    S3.Metadata cmd =
      [("originalname", Spec.truncate 200 (Multer.filename p));
       ("uploadedat", Js.toISOString (now amb))] /\
    S3.objects (snd (Server.POST_upload cfg amb parts objs))
      !! (Server.S3_BUCKET cfg, S3.put_Key cmd) = Some (S3.stored cmd) /\
    (forall stamp, In ("uploadedat", stamp) (S3.Metadata cmd) ->
       Spec.last_char stamp = Some "Z"%char /\
       (Spec.time_value (now amb) -> Spec.read_timestamp stamp = Some (now amb))).
Proof.
  rewrite POST_upload_outcomes. unfold Multer.single.
  destruct (Multer.files Server.upload "file" 1 parts None) as [[f|]|err] eqn:Hfiles;
    [|discriminate|discriminate].
  destruct (put_fault amb (Answer.sent_for cfg amb f)) eqn:Hput; [discriminate|].
  intros _.
  destruct (files_handed_over "file" parts 1%nat None f Hfiles)
    as [[=]|(p & Hin & Hname & _ & Hmime & _ & ->)].
  exists p, (Answer.sent_for cfg amb (Answer.file_of p)).
  split; [exact Hin|]. split; [exact Hname|]. split; [exact Hmime|].
  split; [reflexivity|]. split; [reflexivity|].
  split; [reflexivity|]. split; [reflexivity|]. split; [|split].
  - cbn [Answer.sent_for S3.Metadata Answer.file_of Multer.originalname].
    destruct (Multer.filename p) as [|c r] eqn:Hf; [contradiction|].
    cbn [Js.or_else]. now rewrite slice_prefix by lia.
  - cbn [snd S3.objects Answer.sent_for S3.put_Key]. apply lookup_insert_eq.
  - cbn [Answer.sent_for S3.Metadata].
    intros stamp [Hs|[Hs|[]]]; [discriminate Hs|].
    injection Hs as <-.
    split; [apply toISOString_utc|apply read_toISOString].
Qed.

Lemma successful_upload_witness :
  Spec.time_value (now Demo.amb) /\
  Js.toISOString (now Demo.amb) = "2023-11-14T22:13:20.000Z" /\
  exists p cmd,
    In p [Demo.clip "video/mp4" 10] /\
    Multer.filename p <> "" /\
    Multer.mimetype p = "video/mp4" /\
    S3.log (snd (Server.POST_upload Demo.cfg Demo.amb [Demo.clip "video/mp4" 10] ∅))
      = [S3.Sent cmd] /\
    S3.put_Body cmd = Multer.data p /\
    S3.ContentType cmd = "video/mp4" /\
    S3.CacheControl cmd = "public, max-age=31536000, immutable" /\
    S3.Metadata cmd =
      [("originalname", Spec.truncate 200 (Multer.filename p));
       ("uploadedat", Js.toISOString (now Demo.amb))] /\
    S3.objects (snd (Server.POST_upload Demo.cfg Demo.amb [Demo.clip "video/mp4" 10] ∅))
      !! (Server.S3_BUCKET Demo.cfg, S3.put_Key cmd) = Some (S3.stored cmd) /\
    (forall stamp, In ("uploadedat", stamp) (S3.Metadata cmd) ->
       Spec.last_char stamp = Some "Z"%char /\
       (Spec.time_value (now Demo.amb) ->
        Spec.read_timestamp stamp = Some (now Demo.amb))).
Proof.
  split; [unfold Spec.time_value; cbn; lia|]. split; [reflexivity|].
  apply (successful_upload_puts_mp4_with_metadata Demo.cfg Demo.amb ∅
           [Demo.clip "video/mp4" 10]).
  reflexivity.
Defined.

(** ** Keys *)

(** C8. Every key the server hands to the object store, in the upload's put
    and in the playback's signing request alike, is [id + ".mp4"] for the
    request's identifier; an upload changes the bucket at that key only; the
    two page routes ask nothing of the store; and the mapping sends distinct
    identifiers to distinct keys, so a key comes from exactly one
    identifier. *)
Theorem every_store_key_is_id_dot_mp4 :
  (forall cfg amb parts objs,
     Forall (fun op => S3.op_key op = Spec.key_of (Js.randomUUID (random amb)))
       (S3.log (snd (Server.POST_upload cfg amb parts objs)))) /\
  (forall cfg amb id objs,
     Forall (fun op => S3.op_key op = Spec.key_of id)
       (S3.log (snd (Server.GET_raw cfg amb id objs)))) /\
  (forall cfg amb parts objs k,
     k <> (Server.S3_BUCKET cfg, Spec.key_of (Js.randomUUID (random amb))) ->
     S3.objects (snd (Server.POST_upload cfg amb parts objs)) !! k = objs !! k) /\
  (forall cfg id objs,
     S3.log (snd (Server.GET_v cfg id objs)) = [] /\
     S3.log (snd (Server.GET_index cfg objs)) = []) /\
  (forall id id', Spec.key_of id = Spec.key_of id' <-> id = id').
Proof.
  split; [|split; [|split; [|split]]].
  - intros cfg amb parts objs. rewrite POST_upload_outcomes.
    destruct (Multer.single Server.upload "file" parts) as [[f|]|err];
      [|constructor|constructor].
    destruct (put_fault amb (Answer.sent_for cfg amb f)); repeat constructor.
  - intros cfg amb id objs. destruct (Server.validId id) eqn:H.
    + rewrite (GET_raw_wellformed cfg amb objs id H). repeat constructor.
    + rewrite (GET_raw_malformed cfg amb objs id H). constructor.
  - intros cfg amb parts objs k Hk. rewrite POST_upload_outcomes.
    destruct (Multer.single Server.upload "file" parts) as [[f|]|err];
      [|reflexivity|reflexivity].
    destruct (put_fault amb (Answer.sent_for cfg amb f)); [reflexivity|].
    cbn [snd S3.objects]. now apply lookup_insert_ne.
  - intros cfg id objs. split; [|reflexivity].
    unfold Server.GET_v, Server.serve, Server.view_handler.
    now destruct (Server.validId id).
  - intros id id'. split; [apply append_inj_l|now intros ->].
Qed.

(** * Further properties of the code *)

(** ** The check of the environment *)

Section StartupFacts.

Lemma falsy_spec x : Startup.falsy x = true <-> x = None \/ x = Some "".
Proof.
  destruct x as [[|c r]|]; simpl; intuition (discriminate || auto).
Qed.

Lemma truthy_spec x :
  Startup.falsy x = false -> exists v, x = Some v /\ v <> "" /\ default "" x = v.
Proof.
  destruct x as [[|c r]|]; simpl; try discriminate.
  intros _. exists (String c r). repeat split. discriminate.
Qed.

Lemma needed_falsy (env : gmap string string) :
  Startup.falsy (env !! "S3_ENDPOINT") || Startup.falsy (env !! "S3_ACCESS_KEY_ID")
  || Startup.falsy (env !! "S3_SECRET_ACCESS_KEY") || Startup.falsy (env !! "S3_BUCKET")
  || Startup.falsy (env !! "PUBLIC_BASE_URL") = true <->
  exists k, In k Startup.needed /\ (env !! k = None \/ env !! k = Some "").
Proof.
  rewrite !orb_true_iff, !falsy_spec. unfold Startup.needed. simpl. split.
  - intros [[[[H|H]|H]|H]|H]; eexists; (split; [|exact H]); tauto.
  - intros (k & Hk & H).
    destruct Hk as [<-|[<-|[<-|[<-|[<-|[]]]]]]; tauto.
Qed.

End StartupFacts.

(** X1. The check of the environment lets the process go on exactly when
    each of S3_ENDPOINT, S3_ACCESS_KEY_ID, S3_SECRET_ACCESS_KEY, S3_BUCKET
    and PUBLIC_BASE_URL is set and not empty; it does not look at S3_REGION
    or PORT. Past the check the five values are used as given, the client
    is asked for path-style addressing, the region handed to it is "auto"
    only when S3_REGION is unset (an empty S3_REGION is handed on empty),
    and the port handed to [listen] is PORT, or 10000 when PORT is unset or
    empty. *)
Theorem env_check_needs_five_variables (env : gmap string string) :
  (Startup.check_env env = None <->
   exists k, In k Startup.needed /\ (env !! k = None \/ env !! k = Some "")) /\
  (forall pr, Startup.check_env env = Some pr ->
     env !! "S3_ENDPOINT" = Some (Startup.endpoint (Startup.s3 pr)) /\
     env !! "S3_ACCESS_KEY_ID" = Some (Startup.accessKeyId (Startup.s3 pr)) /\
     env !! "S3_SECRET_ACCESS_KEY" = Some (Startup.secretAccessKey (Startup.s3 pr)) /\
     env !! "S3_BUCKET" = Some (Startup.bucket pr) /\
     env !! "PUBLIC_BASE_URL" = Some (Startup.public_base_url pr) /\
     Startup.bucket pr <> "" /\
     Startup.public_base_url pr <> "" /\
     Startup.forcePathStyle (Startup.s3 pr) = true /\
     Startup.region (Startup.s3 pr) = default "auto" (env !! "S3_REGION") /\
     Startup.port pr =
       match env !! "PORT" with
       | Some (String c r) => Startup.EnvPort (String c r)
       | _ => Startup.DefaultPort 10000
       end).
Proof.
  split.
  - rewrite <- needed_falsy. unfold Startup.check_env.
    destruct (_ || _ || _ || _ || _); split; congruence.
  - intros pr. unfold Startup.check_env.
    destruct (Startup.falsy (env !! "S3_ENDPOINT")) eqn:H1; [discriminate|].
    destruct (Startup.falsy (env !! "S3_ACCESS_KEY_ID")) eqn:H2; [discriminate|].
    destruct (Startup.falsy (env !! "S3_SECRET_ACCESS_KEY")) eqn:H3; [discriminate|].
    destruct (Startup.falsy (env !! "S3_BUCKET")) eqn:H4; [discriminate|].
    destruct (Startup.falsy (env !! "PUBLIC_BASE_URL")) eqn:H5; [discriminate|].
    cbn [orb]. intros [= <-]. cbn.
    destruct (truthy_spec _ H1) as (v1 & E1 & _ & ->).
    destruct (truthy_spec _ H2) as (v2 & E2 & _ & ->).
    destruct (truthy_spec _ H3) as (v3 & E3 & _ & ->).
    destruct (truthy_spec _ H4) as (v4 & E4 & N4 & ->).
    destruct (truthy_spec _ H5) as (v5 & E5 & N5 & ->).
    repeat (split; [assumption || reflexivity|]).
    now destruct (env !! "PORT") as [[|c r]|].
Qed.

Example check_env_sample :
  Startup.check_env Sample.env =
    Some {| Startup.s3 :=
              {| Startup.region := "auto";
                 Startup.endpoint := "https://s3.example";
                 Startup.accessKeyId := "key";
                 Startup.secretAccessKey := "secret";
                 Startup.forcePathStyle := true |};
            Startup.bucket := "videos";
            Startup.public_base_url := "https://example.com/";
            Startup.port := Startup.DefaultPort 10000 |}.
Proof. vm_compute. reflexivity. Qed.

Example check_env_without_bucket : Startup.check_env (delete "S3_BUCKET" Sample.env) = None.
Proof. vm_compute. reflexivity. Qed.

Example check_env_with_empty_region :
  Startup.region <$> (Startup.s3 <$> Startup.check_env (<["S3_REGION" := ""]> Sample.env))
    = Some "".
Proof. vm_compute. reflexivity. Qed.

(** ** The upload route, further *)

Section UploadFacts.

Variable cfg : Server.Config.
Variable amb : Ambient.
Variable objs : gmap (string * string) S3.Object.

Lemma files_nameless opts field parts : forall filesLeft file,
  (forall p, In p parts -> Multer.filename p = "") ->
  Multer.files opts field filesLeft parts file = Multer.Next file.
Proof.
  induction parts as [|q rest IH]; intros filesLeft file Hall; [reflexivity|].
  cbn [Multer.files]. rewrite (Hall q (or_introl eq_refl)). cbn.
  apply IH. intros p Hp. apply Hall. now right.
Qed.

(** The handler proper, for whatever file it is handed. *)
Lemma upload_handler_file f :
  Server.serve (Server.upload_handler cfg amb (Some f)) objs =
    match put_fault amb (Answer.sent_for cfg amb f) with
    | None =>
        (Answer.upload_response cfg amb,
         {| S3.objects :=
              <[(Server.S3_BUCKET cfg, Js.randomUUID (random amb) +:+ ".mp4")
                := S3.stored (Answer.sent_for cfg amb f)]> objs;
            S3.log := [S3.Sent (Answer.sent_for cfg amb f)] |})
    | Some e =>
        (Answer.error_response 500 (Js.message_or e (Js.to_string e)),
         {| S3.objects := objs; S3.log := [S3.Sent (Answer.sent_for cfg amb f)] |})
    end.
Proof.
  unfold Server.serve, Server.upload_handler, try_catch, mbind, M_bind, s3_send.
  cbn -[String.append Js.randomUUID Js.toISOString Js.slice Js.strip_trailing_slashes].
  fold (Answer.sent_for cfg amb f).
  now destruct (put_fault amb (Answer.sent_for cfg amb f)).
Qed.

Lemma truncate_length s : forall n, (String.length (Spec.truncate n s) <= n)%nat.
Proof.
  induction s as [|c s IH]; intros [|n]; simpl; try lia.
  specialize (IH n). lia.
Qed.

Lemma message_or_nonempty e fallback :
  fallback <> "" -> Js.message_or e fallback <> "".
Proof.
  intros H. unfold Js.message_or. destruct (Js.message e) as [[|c r]|]; simpl;
    congruence.
Qed.

End UploadFacts.

(** X2. A request to POST /upload that carries no file (no file part at all,
    or only parts without a filename) is answered 400 with the error
    "Missing file", and nothing is asked of the object store. *)
Theorem upload_without_file_is_missing_file
    (cfg : Server.Config) (amb : Ambient)
    (objs : gmap (string * string) S3.Object) (parts : list Multer.FilePart) :
  (forall p, In p parts -> Multer.filename p = "") ->
  Server.POST_upload cfg amb parts objs =
    (Answer.error_response 400 "Missing file", Answer.untouched objs).
Proof.
  intros H. rewrite POST_upload_outcomes. unfold Multer.single.
  now rewrite (files_nameless Server.upload "file" parts 1%nat None H).
Qed.

Lemma upload_without_file_witness :
  Server.POST_upload Demo.cfg Demo.amb
    [{| Multer.fieldname := "file"; Multer.filename := "";
        Multer.mimetype := "video/mp4"; Multer.data := Demo.zeros 10 |}] ∅ =
    (Answer.error_response 400 "Missing file", Answer.untouched ∅).
Proof.
  apply upload_without_file_is_missing_file.
  intros p [<-|[]]. reflexivity.
Defined.

(** X3. When the store refuses the put of an otherwise valid upload, the
    handler answers 500 with the thrown error's message, or with the error
    rendered as a string when it has no message; the put was attempted
    exactly once (no retry), the answer carries no id, and the bucket is as
    it was. *)
Theorem refused_put_is_500_with_the_message
    (cfg : Server.Config) (amb : Ambient)
    (objs : gmap (string * string) S3.Object)
    (p : Multer.FilePart) (e : Js.Thrown) :
  Multer.filename p <> "" ->
  Multer.fieldname p = "file" ->
  Multer.mimetype p = "video/mp4" ->
  S3.byteLength (Multer.data p) <= 250 * 1024 * 1024 ->
  put_fault amb (Answer.sent_for cfg amb (Answer.file_of p)) = Some e ->
  exists text,
    fst (Server.POST_upload cfg amb [p] objs) = Answer.error_response 500 text /\
    (forall m, Js.message e = Some m -> m <> "" -> text = m) /\
    (Js.message e = None \/ Js.message e = Some "" -> text = Js.to_string e) /\
    S3.log (snd (Server.POST_upload cfg amb [p] objs)) =
      [S3.Sent (Answer.sent_for cfg amb (Answer.file_of p))] /\
    S3.objects (snd (Server.POST_upload cfg amb [p] objs)) = objs.
Proof.
  intros Hname Hfield Hmime Hsize Hput.
  exists (Js.message_or e (Js.to_string e)).
  rewrite POST_upload_outcomes, (single_accepts p Hname Hfield Hmime Hsize), Hput.
  split; [reflexivity|]. unfold Js.message_or.
  split; [|split; [|split; reflexivity]].
  - intros m -> Hm. now destruct m.
  - intros [->| ->]; reflexivity.
Qed.

Lemma refused_put_witness :
  exists text,
    fst (Server.POST_upload Demo.cfg Demo.offline [Demo.clip "video/mp4" 10] ∅) =
      Answer.error_response 500 text /\
    (forall m, Js.message Demo.unreachable = Some m -> m <> "" -> text = m) /\
    (Js.message Demo.unreachable = None \/ Js.message Demo.unreachable = Some "" ->
     text = Js.to_string Demo.unreachable) /\
    S3.log (snd (Server.POST_upload Demo.cfg Demo.offline [Demo.clip "video/mp4" 10] ∅)) =
      [S3.Sent (Answer.sent_for Demo.cfg Demo.offline
                  (Answer.file_of (Demo.clip "video/mp4" 10)))] /\
    S3.objects (snd (Server.POST_upload Demo.cfg Demo.offline [Demo.clip "video/mp4" 10] ∅))
      = ∅.
Proof.
  apply (refused_put_is_500_with_the_message Demo.cfg Demo.offline ∅
           (Demo.clip "video/mp4" 10) Demo.unreachable).
  - discriminate.
  - reflexivity.
  - reflexivity.
  - vm_compute. discriminate.
  - reflexivity.
Defined.

(** X4. Whatever the request, POST /upload answers 200, 400 or 500 and asks
    the store for at most one put. It asks nothing of the store when it
    answers 400; it answers 500 only when its one put threw; and when it
    answers 200 the bucket differs from before only by one object, the
    bytes of a file part of the request, stored under the key of the
    identifier it returns. *)
Theorem upload_outcomes_and_store_traffic
    (cfg : Server.Config) (amb : Ambient)
    (objs : gmap (string * string) S3.Object) (parts : list Multer.FilePart) :
  In (Http.statusCode (fst (Server.POST_upload cfg amb parts objs))) [200; 400; 500] /\
  (length (S3.log (snd (Server.POST_upload cfg amb parts objs))) <= 1)%nat /\
  (Http.statusCode (fst (Server.POST_upload cfg amb parts objs)) = 400 ->
   snd (Server.POST_upload cfg amb parts objs) = Answer.untouched objs) /\
  (Http.statusCode (fst (Server.POST_upload cfg amb parts objs)) = 500 ->
   exists cmd e,
     S3.log (snd (Server.POST_upload cfg amb parts objs)) = [S3.Sent cmd] /\
     put_fault amb cmd = Some e /\
     fst (Server.POST_upload cfg amb parts objs) =
       Answer.error_response 500 (Js.message_or e (Js.to_string e))) /\
  (Http.statusCode (fst (Server.POST_upload cfg amb parts objs)) = 200 ->
   exists p o,
     In p parts /\ S3.content o = Multer.data p /\
     fst (Server.POST_upload cfg amb parts objs) = Answer.upload_response cfg amb /\
     S3.objects (snd (Server.POST_upload cfg amb parts objs)) =
       <[(Server.S3_BUCKET cfg, Spec.key_of (Js.randomUUID (random amb))) := o]> objs).
Proof.
  rewrite POST_upload_outcomes. unfold Multer.single.
  destruct (Multer.files Server.upload "file" 1 parts None) as [[f|]|err] eqn:Hfiles.
  - destruct (put_fault amb (Answer.sent_for cfg amb f)) eqn:Hput.
    + cbn. repeat split; try tauto; try lia; try discriminate.
      intros _. eexists _, _. repeat split. exact Hput.
    + cbn. repeat split; try tauto; try lia; try discriminate.
      intros _.
      destruct (files_handed_over "file" parts 1%nat None f Hfiles)
        as [[=]|(p & Hin & _ & _ & _ & _ & ->)].
      exists p, (S3.stored (Answer.sent_for cfg amb (Answer.file_of p))).
      repeat split; assumption || reflexivity.
  - cbn. repeat split; try tauto; try lia; try discriminate.
  - cbn. repeat split; try tauto; try lia; try discriminate.
Qed.

(** X5. For whatever file the upload handler is handed, the put it sends
    carries an [originalname] that is never empty and never longer than 200
    characters: the first 200 characters of the file's name, or "video.mp4"
    when the name is empty; and an [uploadedat] that ends in the UTC
    designator "Z". *)
Theorem put_metadata_is_bounded_and_never_empty
    (cfg : Server.Config) (amb : Ambient)
    (objs : gmap (string * string) S3.Object) (f : Multer.File) :
  exists cmd original uploaded,
    S3.log (snd (Server.serve (Server.upload_handler cfg amb (Some f)) objs)) =
      [S3.Sent cmd] /\
    S3.Metadata cmd = [("originalname", original); ("uploadedat", uploaded)] /\
    original <> "" /\
    (String.length original <= 200)%nat /\
    (Multer.originalname f = "" -> original = "video.mp4") /\
    (Multer.originalname f <> "" ->
     original = Spec.truncate 200 (Multer.originalname f)) /\
    Spec.last_char uploaded = Some "Z"%char.
Proof.
  exists (Answer.sent_for cfg amb f),
    (Js.slice (Js.or_else (Multer.originalname f) "video.mp4") 0 200),
    (Js.toISOString (now amb)).
  rewrite upload_handler_file.
  split; [now destruct (put_fault amb _)|]. split; [reflexivity|].
  rewrite slice_prefix by lia. change (Z.to_nat 200) with 200%nat.
  split; [|split; [apply truncate_length|split; [|split; [|apply toISOString_utc]]]].
  - destruct (Multer.originalname f); discriminate.
  - intros ->. reflexivity.
  - intros H. destruct (Multer.originalname f); [contradiction|reflexivity].
Qed.

(** X6. Every 400 answer of POST /upload is a JSON object whose [error] is a
    text that is not empty: "Missing file", or the message of the error the
    middleware passed on, or "Bad request" when that error has no
    message. *)
Theorem upload_400_carries_an_error_text
    (cfg : Server.Config) (amb : Ambient)
    (objs : gmap (string * string) S3.Object) (parts : list Multer.FilePart) :
  Http.statusCode (fst (Server.POST_upload cfg amb parts objs)) = 400 ->
  exists text,
    fst (Server.POST_upload cfg amb parts objs) = Answer.error_response 400 text /\
    text <> "" /\
    (forall err, Multer.single Server.upload "file" parts = Multer.NextErr err ->
       (forall m, Js.message err = Some m -> m <> "" -> text = m) /\
       (Js.message err = None \/ Js.message err = Some "" -> text = "Bad request")).
Proof.
  rewrite POST_upload_outcomes.
  destruct (Multer.single Server.upload "file" parts) as [[f|]|err].
  - destruct (put_fault amb _); discriminate.
  - intros _. exists "Missing file". repeat split; discriminate.
  - intros _. exists (Js.message_or err "Bad request").
    split; [reflexivity|]. split; [now apply message_or_nonempty|].
    intros err' [= <-]. unfold Js.message_or. split.
    + intros m -> Hm. now destruct m.
    + intros [->| ->]; reflexivity.
Qed.

Lemma upload_400_witness :
  exists text,
    fst (Server.POST_upload Demo.cfg Demo.amb [Demo.clip "video/webm" 10] ∅) =
      Answer.error_response 400 text /\
    text <> "" /\
    (forall err,
       Multer.single Server.upload "file" [Demo.clip "video/webm" 10] = Multer.NextErr err ->
       (forall m, Js.message err = Some m -> m <> "" -> text = m) /\
       (Js.message err = None \/ Js.message err = Some "" -> text = "Bad request")).
Proof.
  apply (upload_400_carries_an_error_text Demo.cfg Demo.amb ∅ [Demo.clip "video/webm" 10]).
  reflexivity.
Defined.

(** ** Pages and playback, further *)

Section PageFacts.

Variable cfg : Server.Config.
Variable objs : gmap (string * string) S3.Object.

Lemma GET_v_wellformed id :
  Server.validId id = true ->
  Server.GET_v cfg id objs =
    ({| Http.statusCode := 200;
        Http.headers := [("cache-control", "no-store");
                         ("content-type", "text/html; charset=utf-8")];
        Http.body :=
          Some (Http.Text (Server.view_head cfg +:+ "/raw/" +:+ id
                           +:+ Server.view_tail cfg)) |},
     Answer.untouched objs).
Proof.
  intros H. unfold Server.GET_v, Server.serve, Server.view_handler.
  now rewrite H.
Qed.

End PageFacts.


(** The identifier reads the first sixteen bytes of the CSPRNG only. *)
Lemma randomUUID_ext r1 r2 :
  (forall i, (i < 16)%nat -> r1 i = r2 i) ->
  Js.randomUUID r1 = Js.randomUUID r2.
Proof.
  intros H. unfold Js.randomUUID, Js.uuid_byte.
  now rewrite !H by lia.
Qed.

(** X7. GET /v/{id} never asks anything of the object store and answers
    either 400 "Bad id" or a 200 HTML page that is not to be cached; the page
    is the template with "/raw/" and the identifier put in, and an
    identifier that gets that far consists of hex digits and hyphens only,
    twenty or more of them. *)
Theorem view_page_embeds_only_wellformed_ids
    (cfg : Server.Config) (objs : gmap (string * string) S3.Object) (id : string) :
  snd (Server.GET_v cfg id objs) = Answer.untouched objs /\
  (Spec.format_fails id /\ fst (Server.GET_v cfg id objs) = Answer.bad_id \/
   Spec.format_ok id /\
   fst (Server.GET_v cfg id objs) =
     {| Http.statusCode := 200;
        Http.headers := [("cache-control", "no-store");
                         ("content-type", "text/html; charset=utf-8")];
        Http.body :=
          Some (Http.Text (Server.view_head cfg +:+ "/raw/" +:+ id
                           +:+ Server.view_tail cfg)) |}).
Proof.
  destruct (Server.validId id) eqn:H.
  - rewrite (GET_v_wellformed cfg objs id H). split; [reflexivity|].
    right. split; [now apply validId_format_ok|reflexivity].
  - rewrite (GET_v_malformed cfg objs id H). split; [reflexivity|].
    left. split; [now apply validId_format_fails|reflexivity].
Qed.

(** X8. The identifier a successful upload returns plays back: the url
    returned is the base URL (trailing slashes dropped) followed by
    "/v/{id}"; GET /v/{id} then answers the 200 page that refers to
    "/raw/{id}"; and GET /raw/{id} asks for a signed URL, valid 600 seconds,
    of exactly the key under which the upload's bytes now stand in the
    bucket. *)
Theorem uploaded_id_plays_back
    (cfg : Server.Config) (amb later : Ambient)
    (objs : gmap (string * string) S3.Object) (parts : list Multer.FilePart) :
  Http.statusCode (fst (Server.POST_upload cfg amb parts objs)) = 200 ->
  exists id key p o,
    Http.body (fst (Server.POST_upload cfg amb parts objs)) =
      Some (Http.Json
              [("id", id);
               ("url", Js.strip_trailing_slashes (Server.PUBLIC_BASE_URL cfg)
                       +:+ "/v/" +:+ id)]) /\
    Http.statusCode
      (fst (Server.GET_v cfg id (S3.objects (snd (Server.POST_upload cfg amb parts objs)))))
      = 200 /\
    Http.body
      (fst (Server.GET_v cfg id (S3.objects (snd (Server.POST_upload cfg amb parts objs)))))
      = Some (Http.Text (Server.view_head cfg +:+ "/raw/" +:+ id +:+ Server.view_tail cfg)) /\
    S3.log
      (snd (Server.GET_raw cfg later id
              (S3.objects (snd (Server.POST_upload cfg amb parts objs)))))
      = [S3.Presigned {| S3.Bucket := Server.S3_BUCKET cfg; S3.Key := key |} 600] /\
    S3.objects (snd (Server.POST_upload cfg amb parts objs))
      !! (Server.S3_BUCKET cfg, key) = Some o /\
    In p parts /\ S3.content o = Multer.data p.
Proof.
  intros H200.
  pose proof (randomUUID_valid (random amb)) as Hvalid.
  revert H200. rewrite POST_upload_outcomes. unfold Multer.single.
  destruct (Multer.files Server.upload "file" 1 parts None) as [[f|]|err] eqn:Hfiles;
    [|discriminate|discriminate].
  destruct (put_fault amb (Answer.sent_for cfg amb f)); [discriminate|].
  intros _.
  destruct (files_handed_over "file" parts 1%nat None f Hfiles)
    as [[=]|(p & Hin & _ & _ & _ & _ & ->)].
  exists (Js.randomUUID (random amb)), (Js.randomUUID (random amb) +:+ ".mp4"),
    p, (S3.stored (Answer.sent_for cfg amb (Answer.file_of p))).
  cbn [fst snd S3.objects].
  rewrite (GET_v_wellformed cfg _ _ Hvalid), (GET_raw_wellformed cfg later _ _ Hvalid).
  repeat split; try reflexivity; [apply lookup_insert_eq|exact Hin].
Qed.

Lemma uploaded_id_plays_back_witness :
  exists id key p o,
    Http.body (fst (Server.POST_upload Demo.cfg Demo.amb [Demo.clip "video/mp4" 10] ∅)) =
      Some (Http.Json
              [("id", id);
               ("url", Js.strip_trailing_slashes (Server.PUBLIC_BASE_URL Demo.cfg)
                       +:+ "/v/" +:+ id)]) /\
    Http.statusCode
      (fst (Server.GET_v Demo.cfg id
              (S3.objects (snd (Server.POST_upload Demo.cfg Demo.amb
                                  [Demo.clip "video/mp4" 10] ∅)))))
      = 200 /\
    Http.body
      (fst (Server.GET_v Demo.cfg id
              (S3.objects (snd (Server.POST_upload Demo.cfg Demo.amb
                                  [Demo.clip "video/mp4" 10] ∅)))))
      = Some (Http.Text (Server.view_head Demo.cfg +:+ "/raw/" +:+ id
                         +:+ Server.view_tail Demo.cfg)) /\
    S3.log
      (snd (Server.GET_raw Demo.cfg Sample.later id
              (S3.objects (snd (Server.POST_upload Demo.cfg Demo.amb
                                  [Demo.clip "video/mp4" 10] ∅)))))
      = [S3.Presigned {| S3.Bucket := Server.S3_BUCKET Demo.cfg; S3.Key := key |} 600] /\
    S3.objects (snd (Server.POST_upload Demo.cfg Demo.amb [Demo.clip "video/mp4" 10] ∅))
      !! (Server.S3_BUCKET Demo.cfg, key) = Some o /\
    In p [Demo.clip "video/mp4" 10] /\ S3.content o = Multer.data p.
Proof.
  apply (uploaded_id_plays_back Demo.cfg Demo.amb Sample.later ∅
           [Demo.clip "video/mp4" 10]).
  reflexivity.
Defined.

(** ** One upload after another *)

Lemma POST_upload_200 cfg amb objs parts :
  Http.statusCode (fst (Server.POST_upload cfg amb parts objs)) = 200 ->
  exists p,
    In p parts /\
    Server.POST_upload cfg amb parts objs =
      (Answer.upload_response cfg amb,
       {| S3.objects :=
            <[(Server.S3_BUCKET cfg, Spec.key_of (Js.randomUUID (random amb)))
              := S3.stored (Answer.sent_for cfg amb (Answer.file_of p))]> objs;
          S3.log := [S3.Sent (Answer.sent_for cfg amb (Answer.file_of p))] |}).
Proof.
  rewrite POST_upload_outcomes. unfold Multer.single.
  destruct (Multer.files Server.upload "file" 1 parts None) as [[f|]|err] eqn:Hfiles;
    [|discriminate|discriminate].
  destruct (put_fault amb (Answer.sent_for cfg amb f)); [discriminate|].
  intros _.
  destruct (files_handed_over "file" parts 1%nat None f Hfiles)
    as [[=]|(p & Hin & _ & _ & _ & _ & ->)].
  exists p. split; [exact Hin|reflexivity].
Qed.

(** X9. Two uploads whose CSPRNG bytes differ in a bit that the UUID format
    does not fix get different identifiers, and after the second both
    objects stand in the bucket, each under its own key with its own bytes;
    that the two requests may carry the same file changes nothing (no
    deduplication). *)
Theorem uploads_with_different_entropy_do_not_collide
    (cfg : Server.Config) (amb1 amb2 : Ambient)
    (objs : gmap (string * string) S3.Object)
    (parts1 parts2 : list Multer.FilePart) (i : nat) :
  ~ In i Spec.v4_fixed ->
  Spec.entropy_bits (random amb1) !! i <> Spec.entropy_bits (random amb2) !! i ->
  Http.statusCode (fst (Server.POST_upload cfg amb1 parts1 objs)) = 200 ->
  Http.statusCode
    (fst (Server.POST_upload cfg amb2 parts2
            (S3.objects (snd (Server.POST_upload cfg amb1 parts1 objs))))) = 200 ->
  Js.randomUUID (random amb1) <> Js.randomUUID (random amb2) /\
  fst (Server.POST_upload cfg amb1 parts1 objs) = Answer.upload_response cfg amb1 /\
  fst (Server.POST_upload cfg amb2 parts2
         (S3.objects (snd (Server.POST_upload cfg amb1 parts1 objs))))
    = Answer.upload_response cfg amb2 /\
  exists p1 p2 o1 o2,
    In p1 parts1 /\ In p2 parts2 /\
    S3.content o1 = Multer.data p1 /\ S3.content o2 = Multer.data p2 /\
    S3.objects
      (snd (Server.POST_upload cfg amb2 parts2
              (S3.objects (snd (Server.POST_upload cfg amb1 parts1 objs)))))
      !! (Server.S3_BUCKET cfg, Spec.key_of (Js.randomUUID (random amb1))) = Some o1 /\
    S3.objects
      (snd (Server.POST_upload cfg amb2 parts2
              (S3.objects (snd (Server.POST_upload cfg amb1 parts1 objs)))))
      !! (Server.S3_BUCKET cfg, Spec.key_of (Js.randomUUID (random amb2))) = Some o2.
Proof.
  intros Hi Hbit H1 H2.
  assert (Hid : Js.randomUUID (random amb1) <> Js.randomUUID (random amb2)).
  { intros Heq. apply Hbit.
    rewrite <- !(randomUUID_free_bits _ i Hi). now rewrite Heq. }
  destruct (POST_upload_200 _ _ _ _ H1) as (p1 & Hp1 & E1).
  rewrite E1 in H2 |- *. cbn [fst snd S3.objects] in H2 |- *.
  destruct (POST_upload_200 _ _ _ _ H2) as (p2 & Hp2 & E2).
  rewrite E2. cbn [fst snd S3.objects].
  split; [exact Hid|]. split; [reflexivity|]. split; [reflexivity|].
  exists p1, p2, (S3.stored (Answer.sent_for cfg amb1 (Answer.file_of p1))),
    (S3.stored (Answer.sent_for cfg amb2 (Answer.file_of p2))).
  repeat split; try assumption.
  - rewrite lookup_insert_ne; [apply lookup_insert_eq|].
    intros Hk. apply (f_equal snd) in Hk. cbn [snd] in Hk.
    apply Hid. symmetry. exact (append_inj_l _ _ _ Hk).
  - apply lookup_insert_eq.
Qed.

Lemma uploads_with_different_entropy_witness :
  Js.randomUUID (random Demo.amb) <> Js.randomUUID (random Sample.later) /\
  exists o1 o2,
    S3.objects
      (snd (Server.POST_upload Demo.cfg Sample.later [Demo.clip "video/mp4" 10]
              (S3.objects (snd (Server.POST_upload Demo.cfg Demo.amb
                                  [Demo.clip "video/mp4" 10] ∅)))))
      !! ("videos", "00112233-4455-4677-8899-aabbccddeeff.mp4") = Some o1 /\
    S3.objects
      (snd (Server.POST_upload Demo.cfg Sample.later [Demo.clip "video/mp4" 10]
              (S3.objects (snd (Server.POST_upload Demo.cfg Demo.amb
                                  [Demo.clip "video/mp4" 10] ∅)))))
      !! ("videos", "ffffffff-ffff-4fff-bfff-ffffffffffff.mp4") = Some o2.
Proof.
  destruct (uploads_with_different_entropy_do_not_collide Demo.cfg Demo.amb Sample.later ∅
              [Demo.clip "video/mp4" 10] [Demo.clip "video/mp4" 10] 7%nat)
    as (Hid & _ & _ & p1 & p2 & o1 & o2 & _ & _ & _ & _ & L1 & L2).
  - vm_compute. intuition discriminate.
  - vm_compute. discriminate.
  - reflexivity.
  - reflexivity.
  - split; [exact Hid|]. exists o1, o2. split; [exact L1|exact L2].
Defined.

(** X10. Nothing checks that an identifier is new. When the CSPRNG hands a
    second upload the same sixteen bytes as an earlier one, both uploads
    answer 200 with the same id, and the second replaces the first: the
    bucket ends exactly as if the first upload had never happened. *)
Theorem repeated_entropy_overwrites_the_earlier_upload
    (cfg : Server.Config) (amb1 amb2 : Ambient)
    (objs : gmap (string * string) S3.Object)
    (parts1 parts2 : list Multer.FilePart) :
  (forall i, (i < 16)%nat -> random amb1 i = random amb2 i) ->
  Http.statusCode (fst (Server.POST_upload cfg amb1 parts1 objs)) = 200 ->
  Http.statusCode
    (fst (Server.POST_upload cfg amb2 parts2
            (S3.objects (snd (Server.POST_upload cfg amb1 parts1 objs))))) = 200 ->
  Http.body (fst (Server.POST_upload cfg amb1 parts1 objs)) =
    Http.body (fst (Server.POST_upload cfg amb2 parts2
                      (S3.objects (snd (Server.POST_upload cfg amb1 parts1 objs))))) /\
  S3.objects
    (snd (Server.POST_upload cfg amb2 parts2
            (S3.objects (snd (Server.POST_upload cfg amb1 parts1 objs)))))
    = S3.objects (snd (Server.POST_upload cfg amb2 parts2 objs)) /\
  exists p2 o2,
    In p2 parts2 /\ S3.content o2 = Multer.data p2 /\
    S3.objects
      (snd (Server.POST_upload cfg amb2 parts2
              (S3.objects (snd (Server.POST_upload cfg amb1 parts1 objs)))))
      !! (Server.S3_BUCKET cfg, Spec.key_of (Js.randomUUID (random amb1))) = Some o2.
Proof.
  intros Hsame H1 H2.
  pose proof (randomUUID_ext _ _ Hsame) as Hid.
  destruct (POST_upload_200 _ _ _ _ H1) as (p1 & Hp1 & E1).
  rewrite E1 in H2 |- *. cbn [fst snd S3.objects] in H2 |- *.
  revert H2. rewrite !POST_upload_outcomes. unfold Multer.single.
  destruct (Multer.files Server.upload "file" 1 parts2 None) as [[f|]|err] eqn:Hfiles;
    try discriminate.
  destruct (put_fault amb2 (Answer.sent_for cfg amb2 f)); try discriminate.
  intros _. cbn [fst snd S3.objects Answer.upload_response Http.body].
  destruct (files_handed_over "file" parts2 1%nat None f Hfiles)
    as [[=]|(p2 & Hp2 & _ & _ & _ & _ & ->)].
  unfold Spec.key_of. rewrite Hid.
  split; [reflexivity|]. split; [apply insert_insert_eq|].
  exists p2, (S3.stored (Answer.sent_for cfg amb2 (Answer.file_of p2))).
  split; [exact Hp2|]. split; [reflexivity|apply lookup_insert_eq].
Qed.

Lemma repeated_entropy_witness :
  S3.objects
    (snd (Server.POST_upload Demo.cfg Demo.amb [Demo.clip "video/mp4" 20]
            (S3.objects (snd (Server.POST_upload Demo.cfg Demo.amb
                                [Demo.clip "video/mp4" 10] ∅)))))
    = S3.objects (snd (Server.POST_upload Demo.cfg Demo.amb [Demo.clip "video/mp4" 20] ∅)).
Proof.
  destruct (repeated_entropy_overwrites_the_earlier_upload Demo.cfg Demo.amb Demo.amb ∅
              [Demo.clip "video/mp4" 10] [Demo.clip "video/mp4" 20])
    as (_ & Hsame & _).
  - reflexivity.
  - reflexivity.
  - reflexivity.
  - exact Hsame.
Defined.

(** ** The upload form *)

Section FormFacts.

Lemma change_mp4_only files pg : Client.mp4_only (Client.change files pg).
Proof.
  unfold Client.mp4_only, Client.change. destruct files as [|f rest]; [discriminate|].
  destruct (String.eqb_spec (Client.type f) "video/mp4") as [H|H]; simpl;
    [|discriminate].
  now intros g [= <-].
Qed.

Lemma step_mp4_only pg ev :
  Client.mp4_only pg ->
  Client.mp4_only (fst (Client.step pg ev)) /\
  forall req, snd (Client.step pg ev) = Some req ->
    exists f, req = Client.form_data f /\ Client.type f = "video/mp4".
Proof.
  intros Hinv. destruct ev as [files| |o]; simpl.
  - split; [apply change_mp4_only|discriminate].
  - unfold Client.click. destruct (Client.file pg) as [f|] eqn:Hf; simpl.
    + split; [intros g Hg; cbn in Hg; apply Hinv; now rewrite Hf|].
      intros req [= <-]. exists f. split; [reflexivity|now apply Hinv].
    + split; [exact Hinv|discriminate].
  - split; [exact Hinv|discriminate].
Qed.

Lemma run_mp4_only evs : forall pg,
  Client.mp4_only pg ->
  Client.mp4_only (fst (Client.run pg evs)) /\
  Forall (fun req => exists f, req = Client.form_data f /\ Client.type f = "video/mp4")
    (snd (Client.run pg evs)).
Proof.
  induction evs as [|ev rest IH]; intros pg Hinv; [split; [exact Hinv|constructor]|].
  cbn [Client.run].
  destruct (step_mp4_only pg ev Hinv) as [Hnext Hsent].
  destruct (Client.step pg ev) as [pg' sent]. cbn [fst snd] in Hnext, Hsent.
  destruct (IH pg' Hnext) as [Hlast Hmore].
  destruct (Client.run pg' rest) as [last more]. cbn [fst snd] in *.
  split; [exact Hlast|].
  destruct sent as [req|]; [|exact Hmore].
  constructor; [now apply Hsent|exact Hmore].
Qed.

End FormFacts.

Lemma settle_error code text pg :
  Client.ok (Answer.error_response code text) = false ->
  Client.out (Client.settle (Client.Responded (Answer.error_response code text)) pg) =
    Client.Failed (match text with
                   | EmptyString => Client.UploadFailed code
                   | _ => Client.Said text
                   end).
Proof.
  intros Hok. unfold Client.settle. rewrite Hok. cbn.
  now destruct text.
Qed.

Lemma settle_uploaded cfg amb pg :
  Client.out (Client.settle (Client.Responded (Answer.upload_response cfg amb)) pg) =
    Client.PageLink (Js.strip_trailing_slashes (Server.PUBLIC_BASE_URL cfg)
                     +:+ "/v/" +:+ Js.randomUUID (random amb)).
Proof.
  unfold Client.settle. cbn -[String.append Js.randomUUID Js.strip_trailing_slashes].
  now destruct (Js.strip_trailing_slashes (Server.PUBLIC_BASE_URL cfg)).
Qed.

(** X11. Whatever the user does with the upload form (picking files,
    clicking, in any order, while requests settle in any way), the file the
    script holds is a video/mp4 file, and every request it sends is a single
    part on the field "file" declared video/mp4, which the server's file
    filter lets through. *)
Theorem form_only_sends_mp4 (evs : list Client.Event) :
  Client.mp4_only (fst (Client.run Client.loaded evs)) /\
  Forall
    (fun req =>
       exists p,
         req = [p] /\ Multer.fieldname p = "file" /\
         Multer.mimetype p = "video/mp4" /\
         Multer.fileFilter Server.upload p = Normal true)
    (snd (Client.run Client.loaded evs)).
Proof.
  assert (H0 : Client.mp4_only Client.loaded) by (intros f; discriminate).
  destruct (run_mp4_only evs Client.loaded H0) as [Hlast Hsent].
  split; [exact Hlast|].
  eapply Forall_impl; [exact Hsent|].
  intros req (f & -> & Hf). eexists. split; [reflexivity|].
  split; [reflexivity|]. split; [exact Hf|now apply fileFilter_mp4].
Qed.

(** X12. One round of the form with a video/mp4 file picked: the script
    sends the file, and when the answer is in the button is enabled again,
    the spinner is gone and the output is shown. The output is the link to
    the page URL the server returned when the server answered 200; the
    server's own error text when it answered 400, having written nothing;
    and, when it answered 500, the server's error text, or the fallback
    with the status when that text is empty. *)
Theorem picked_video_shows_link_or_error
    (cfg : Server.Config) (amb : Ambient)
    (objs : gmap (string * string) S3.Object)
    (f : Client.File) (rest : list Client.File) (pg : Client.Page) :
  Client.type f = "video/mp4" ->
  exists shown,
    Session.pick_and_send cfg amb objs (f :: rest) pg =
      ({| Client.file := Some f; Client.go_disabled := false;
          Client.sp_shown := false;
          Client.nm := Client.Chosen (Client.name f) (Client.megabytes (Client.size f));
          Client.out_shown := true; Client.out := shown |},
       snd (Server.POST_upload cfg amb (Client.form_data f) objs)) /\
    (fst (Server.POST_upload cfg amb (Client.form_data f) objs) =
       Answer.upload_response cfg amb /\
     shown = Client.PageLink (Js.strip_trailing_slashes (Server.PUBLIC_BASE_URL cfg)
                              +:+ "/v/" +:+ Js.randomUUID (random amb))
     \/
     (exists text,
        Server.POST_upload cfg amb (Client.form_data f) objs =
          (Answer.error_response 400 text, Answer.untouched objs) /\
        text <> "" /\ shown = Client.Failed (Client.Said text))
     \/
     (exists text,
        fst (Server.POST_upload cfg amb (Client.form_data f) objs) =
          Answer.error_response 500 text /\
        shown = Client.Failed (match text with
                               | EmptyString => Client.UploadFailed 500
                               | _ => Client.Said text
                               end))).
Proof.
  intros Hmp4.
  exists (Client.out
            (Client.settle
               (Client.Responded (fst (Server.POST_upload cfg amb (Client.form_data f) objs)))
               Client.loaded)).
  split.
  - unfold Session.pick_and_send, Client.change. rewrite Hmp4, String.eqb_refl.
    cbn [negb]. unfold Client.click. cbn [Client.file].
    now destruct (Server.POST_upload cfg amb (Client.form_data f) objs).
  - rewrite POST_upload_outcomes.
    destruct (Multer.single Server.upload "file" (Client.form_data f)) as [[g|]|err].
    + destruct (put_fault amb (Answer.sent_for cfg amb g)) as [e|].
      * right. right. eexists. split; [reflexivity|]. now apply settle_error.
      * left. split; [reflexivity|]. apply settle_uploaded.
    + right. left. exists "Missing file". split; [reflexivity|].
      split; [discriminate|reflexivity].
    + right. left. exists (Js.message_or err "Bad request"). split; [reflexivity|].
      assert (Hne : Js.message_or err "Bad request" <> "")
        by (apply message_or_nonempty; discriminate).
      split; [exact Hne|]. cbn [fst]. rewrite settle_error by reflexivity.
      now destruct (Js.message_or err "Bad request").
Qed.

Lemma picked_video_witness :
  exists shown,
    Session.pick_and_send Demo.cfg Demo.amb ∅ [Sample.video] Client.loaded =
      ({| Client.file := Some Sample.video; Client.go_disabled := false;
          Client.sp_shown := false;
          Client.nm := Client.Chosen "clip.mp4" 0;
          Client.out_shown := true; Client.out := shown |},
       snd (Server.POST_upload Demo.cfg Demo.amb (Client.form_data Sample.video) ∅)) /\
    shown = Client.PageLink "https://example.com/v/00112233-4455-4677-8899-aabbccddeeff".
Proof.
  destruct (picked_video_shows_link_or_error Demo.cfg Demo.amb ∅ Sample.video []
              Client.loaded) as (shown & Hround & Hshown).
  - reflexivity.
  - exists shown. split; [exact Hround|].
    destruct Hshown as [[_ ->]|[(text & E & _)|(text & E & _)]];
      [reflexivity|discriminate E|discriminate E].
Defined.

(** ** Raw playback, further *)

(** X13. Whatever the identifier and however the signer behaves, GET
    /raw/{id} leaves the bucket as it was, asks for at most one signed URL,
    and answers 302, 400 or 404; it asks for none exactly when it answers
    400, which is exactly when the identifier is malformed. The 400 and 404
    answers are two fixed responses that set no header, so neither carries
    anything the signer threw; the 302 answer is marked no-store and names
    the signed URL as its location. *)
Theorem raw_reads_only_and_answers_302_400_404
    (cfg : Server.Config) (amb : Ambient)
    (objs : gmap (string * string) S3.Object) (id : string) :
  S3.objects (snd (Server.GET_raw cfg amb id objs)) = objs /\
  (length (S3.log (snd (Server.GET_raw cfg amb id objs))) <= 1)%nat /\
  (Server.validId id = false /\
   Server.GET_raw cfg amb id objs = (Answer.bad_id, Answer.untouched objs)
   \/
   Server.validId id = true /\
   length (S3.log (snd (Server.GET_raw cfg amb id objs))) = 1%nat /\
   (fst (Server.GET_raw cfg amb id objs) = Answer.not_found \/
    exists url,
      presigner amb {| S3.Bucket := Server.S3_BUCKET cfg; S3.Key := id +:+ ".mp4" |} 600
        = Normal url /\
      fst (Server.GET_raw cfg amb id objs) =
        {| Http.statusCode := 302;
           Http.headers := [("Location", url); ("cache-control", "no-store")];
           Http.body := Some (Http.Redirecting url) |})).
Proof.
  destruct (Server.validId id) eqn:H.
  - rewrite (GET_raw_wellformed cfg amb objs id H). cbn [fst snd S3.objects S3.log length].
    split; [reflexivity|]. split; [lia|]. right. split; [reflexivity|].
    split; [reflexivity|].
    destruct (presigner amb _ 600%Z) as [url|e]; [right; eauto|now left].
  - rewrite (GET_raw_malformed cfg amb objs id H). cbn.
    split; [reflexivity|]. split; [lia|]. now left.
Qed.

Example picture_is_not_sent :
  Session.pick_and_send Demo.cfg Demo.amb ∅ [Sample.picture] Client.loaded =
    ({| Client.file := None; Client.go_disabled := true; Client.sp_shown := false;
        Client.nm := Client.NotMp4; Client.out_shown := false;
        Client.out := Client.Blank |},
     Answer.untouched ∅).
Proof. reflexivity. Qed.

(** A request settling after the user has picked something else enables the
    button although no file is held; a click then sends nothing. *)
Example late_answer_enables_the_button :
  Client.run Client.loaded
    [Client.Picked [Sample.video]; Client.Clicked; Client.Picked [Sample.picture];
     Client.Settled (Client.Rejected Demo.unreachable); Client.Clicked] =
    ({| Client.file := None; Client.go_disabled := false; Client.sp_shown := false;
        Client.nm := Client.NotMp4; Client.out_shown := true;
        Client.out := Client.Failed (Client.Said "connect ECONNREFUSED") |},
     [Client.form_data Sample.video]).
Proof. reflexivity. Qed.
